(** * Joybait backend: challenge rotation, reflections, XP and streaks

    A shallow embedding of [main.py] (the FastAPI handlers) together with
    the pieces of the Python standard library and of the MongoDB query
    language that the handlers rely on, followed by the properties of
    the handlers. *)

From Stdlib Require Import ZArith List Bool Lia Sorted.
From stdpp Require Import gmap strings list fin_maps pretty.

Local Open Scope string_scope.
Local Open Scope Z_scope.

(* ===================================================================== *)
(** * Part I: definitions                                                 *)
(* ===================================================================== *)

(** ** Calendar dates and instants ([datetime.date], [datetime.datetime]) *)

Module PyDate.

Record date := Date { year : Z; month : Z; day : Z }.

(** A UTC instant; [to_date] is Python's [datetime.date()]. *)
Record datetime := Datetime {
  to_date : date;
  hour : Z;
  minute : Z;
  second : Z;
  microsecond : Z
}.

#[export] Instance date_eq_dec : EqDecision date.
Proof. solve_decision. Defined.

#[export] Instance datetime_eq_dec : EqDecision datetime.
Proof. solve_decision. Defined.

(** CPython's [_is_leap], [_days_before_year], [_days_before_month] and
    [_ymd2ord]; [//] on integers is floor division, which is [Z.div]
    for the positive divisors used here. *)
Definition is_leap (y : Z) : bool :=
  (y mod 4 =? 0) && (negb (y mod 100 =? 0) || (y mod 400 =? 0)).

Definition days_before_year (y : Z) : Z :=
  let y := y - 1 in
  y * 365 + y / 4 - y / 100 + y / 400.

(** [_DAYS_BEFORE_MONTH]; index 0 is a placeholder, months count from 1. *)
Definition DAYS_BEFORE_MONTH : list Z :=
  [-1; 0; 31; 59; 90; 120; 151; 181; 212; 243; 273; 304; 334].

Definition days_before_month (y m : Z) : Z :=
  nth (Z.to_nat m) DAYS_BEFORE_MONTH 0
  + (if (2 <? m) && is_leap y then 1 else 0).

Definition ymd2ord (y m d : Z) : Z :=
  days_before_year y + days_before_month y m + d.

(** [_DAYS_IN_MONTH] and [_days_in_month]. *)
Definition DAYS_IN_MONTH : list Z :=
  [-1; 31; 28; 31; 30; 31; 30; 31; 31; 30; 31; 30; 31].

Definition days_in_month (y m : Z) : Z :=
  if (m =? 2) && is_leap y then 29 else nth (Z.to_nat m) DAYS_IN_MONTH 0.

(** [date.toordinal()]: proleptic Gregorian ordinal, 0001-01-01 is day 1. *)
Definition toordinal (d : date) : Z := ymd2ord (year d) (month d) (day d).

(** [(a - b).days] for two dates. *)
Definition days_between (a b : date) : Z := toordinal a - toordinal b.

(** Microseconds since the start of day 0, used to order instants. *)
Definition timestamp (t : datetime) : Z :=
  (((toordinal (to_date t) * 24 + hour t) * 60 + minute t) * 60 + second t)
  * 1000000 + microsecond t.

End PyDate.
Export PyDate.

(** ** Documents *)

Module Bson.

(** The values that occur in the documents of this service. *)
Inductive value :=
| VNone
| VBool (b : bool)
| VInt (n : Z)
| VStr (s : string)
| VDatetime (t : datetime).

#[export] Instance value_eq_dec : EqDecision value.
Proof. solve_decision. Defined.

(** A document is a Python [dict] with string keys. *)
Abbreviation Doc := (gmap string value).

(** [d.get(k, default)]; [d.get(k)] is [dict_get d k VNone]. *)
Definition dict_get (d : Doc) (k : string) (dflt : value) : value :=
  default dflt (d !! k).

(** Truth value of a [dict]: false exactly when it is empty. *)
Definition dict_truthy (d : Doc) : bool := bool_decide (d ≠ ∅).

(** Python's view of a value as an integer operand ([bool] is a
    subclass of [int]); anything else raises [TypeError] in arithmetic
    and in comparisons with an [int]. *)
Definition as_int (v : value) : option Z :=
  match v with
  | VInt n => Some n
  | VBool b => Some (Z.b2z b)
  | _ => None
  end.

Definition pad (width : nat) (s : string) : string :=
  String.concat "" (replicate (width - String.length s)%nat "0") +:+ s.

(** [str(v)]; instants print as the naive datetimes the driver returns. *)
Definition py_str (v : value) : string :=
  match v with
  | VNone => "None"
  | VBool true => "True"
  | VBool false => "False"
  | VInt n => pretty n
  | VStr s => s
  | VDatetime t =>
      let d := to_date t in
      pad 4 (pretty (year d)) +:+ "-" +:+ pad 2 (pretty (month d)) +:+ "-"
      +:+ pad 2 (pretty (day d)) +:+ " " +:+ pad 2 (pretty (hour t)) +:+ ":"
      +:+ pad 2 (pretty (minute t)) +:+ ":" +:+ pad 2 (pretty (second t))
      +:+ (if microsecond t =? 0 then ""
           else "." +:+ pad 6 (pretty (microsecond t)))
  end.

(** BSON comparison order across types, as used by [sort]:
    null < numbers < strings < booleans < dates. *)
Definition bson_rank (v : value) : Z :=
  match v with
  | VNone => 1
  | VInt _ => 2
  | VStr _ => 3
  | VBool _ => 8
  | VDatetime _ => 9
  end.

Definition bson_leb (a b : value) : bool :=
  match a, b with
  | VInt x, VInt y => x <=? y
  | VStr x, VStr y => String.leb x y
  | VBool x, VBool y => implb x y
  | VDatetime x, VDatetime y => timestamp x <=? timestamp y
  | _, _ => bson_rank a <=? bson_rank b
  end.

End Bson.
Export Bson.

(** ** The MongoDB operations used by the handlers *)

Module Mongo.

(** Conditions on one field: [{f: v}], [{f: {"$eq": v}}] and
    [{f: {"$exists": b}}]. *)
Inductive condition :=
| Equals (v : value)
| OpEq (v : value)
| OpExists (b : bool).

(** A query document: every listed field must satisfy its condition. *)
Definition query := list (string * condition).

(** Equality with [null] also matches a missing field. *)
Definition value_matches (o : option value) (v : value) : bool :=
  match o with
  | Some x => bool_decide (x = v)
  | None => bool_decide (v = VNone)
  end.

Definition field_matches (d : Doc) (fc : string * condition) : bool :=
  match fc.2 with
  | Equals v => value_matches (d !! fc.1) v
  | OpEq v => value_matches (d !! fc.1) v
  | OpExists b => Bool.eqb (bool_decide (is_Some (d !! fc.1))) b
  end.

Definition matches (q : query) (d : Doc) : bool := forallb (field_matches d) q.

(** [collection.find_one(q)]: the first matching document in natural
    order, or [None]. *)
Definition find_one (q : query) (coll : list Doc) : option Doc :=
  List.find (matches q) coll.

(** [collection.find(q)]: the matching documents in natural order. *)
Definition find (q : query) (coll : list Doc) : list Doc :=
  List.filter (matches q) coll.

(** An update document [{"$set": {...}, "$inc": {...}}]. *)
Record update := Update {
  set_fields : list (string * value);
  inc_fields : list (string * Z)
}.

Definition apply_set (d : Doc) (fv : string * value) : Doc := <[fv.1 := fv.2]> d.

(** [$inc] creates a missing field and refuses a non-numeric one. *)
Definition apply_inc (d : Doc) (fn : string * Z) : option Doc :=
  match d !! fn.1 with
  | None => Some (<[fn.1 := VInt fn.2]> d)
  | Some (VInt x) => Some (<[fn.1 := VInt (x + fn.2)]> d)
  | Some _ => None
  end.

Fixpoint apply_incs (d : Doc) (incs : list (string * Z)) : option Doc :=
  match incs with
  | [] => Some d
  | fn :: rest =>
      match apply_inc d fn with
      | Some d' => apply_incs d' rest
      | None => None
      end
  end.

Definition apply_update (u : update) (d : Doc) : option Doc :=
  apply_incs (fold_left apply_set (set_fields u) d) (inc_fields u).

(** [collection.update_one(q, u)]: the first matching document is
    replaced by its update; [None] is a write error, and then nothing
    is changed. Without a match the collection is left as it is. *)
Fixpoint update_one (q : query) (u : update) (coll : list Doc)
  : option (list Doc) :=
  match coll with
  | [] => Some []
  | d :: rest =>
      if matches q d
      then match apply_update u d with
           | Some d' => Some (d' :: rest)
           | None => None
           end
      else match update_one q u rest with
           | Some rest' => Some (d :: rest')
           | None => None
           end
  end.

(** [cursor.sort(key, -1)]: descending on [key], a missing field sorting
    as null. The server leaves the order of ties open; here ties keep
    their natural order. *)
Definition sort_key (key : string) (d : Doc) : value := dict_get d key VNone.

Fixpoint insert_descending (key : string) (d : Doc) (l : list Doc) : list Doc :=
  match l with
  | [] => [d]
  | x :: xs =>
      if bson_leb (sort_key key x) (sort_key key d)
      then d :: x :: xs
      else x :: insert_descending key d xs
  end.

Definition sort_descending (key : string) (l : list Doc) : list Doc :=
  fold_right (insert_descending key) [] l.

(** [cursor.limit(n)]: a limit of 0 is equivalent to no limit, and a
    negative limit is sent as its absolute value (the server then
    answers in a single batch, whose size is not bounded here). *)
Definition limit (n : Z) (l : list Doc) : list Doc :=
  if n =? 0 then l else firstn (Z.abs_nat n) l.

End Mongo.
Export Mongo.

(** ** Handlers as state-and-exception computations *)

Module Runtime.

Inductive exn :=
| HTTPException (status_code : Z) (detail : string)
| TypeError
| IndexError
| ValidationError
| WriteError
| DatabaseNotAvailable.

Inductive result (A : Type) :=
| Ok (a : A)
| Raise (e : exn).
Arguments Ok {A} a.
Arguments Raise {A} e.

(** [db[name]] names a collection; one that was never written is empty. *)
Abbreviation Database := (gmap string (list Doc)).

(** What a request can observe and change: the storage handle [db]
    ([None] when storage is not configured), the UTC clock, given as
    the sequence of instants that successive readings return, and the
    identifiers the store hands out. *)
Record World := {
  db : option Database;
  clock : nat → datetime;
  clock_reads : nat;
  id_supply : nat → string;
  ids_taken : nat
}.

Definition M (A : Type) : Type := World → result A * World.

#[export] Instance M_ret : MRet M := λ A a w, (Ok a, w).

#[export] Instance M_bind : MBind M := λ A B f m w,
  match m w with
  | (Ok a, w') => f a w'
  | (Raise e, w') => (Raise e, w')
  end.

Definition raise {A} (e : exn) : M A := λ w, (Raise e, w).

Definition lift {A} (r : result A) : M A := λ w, (r, w).

(** [datetime.now(timezone.utc)] *)
Definition utcnow : M datetime := λ w,
  (Ok (clock w (clock_reads w)),
   {| db := db w; clock := clock w; clock_reads := S (clock_reads w);
      id_supply := id_supply w; ids_taken := ids_taken w |}).

(** [db is None] *)
Definition db_is_none : M bool := λ w, (Ok (bool_decide (db w = None)), w).

Definition collection (name : string) (d : Database) : list Doc :=
  default [] (d !! name).

Definition set_collection (name : string) (docs : list Doc) (w : World) : World :=
  {| db := (λ d : Database, <[name := docs]> d) <$> db w;
     clock := clock w; clock_reads := clock_reads w;
     id_supply := id_supply w; ids_taken := ids_taken w |}.

(** [db[name]]; subscripting [None] is a [TypeError]. *)
Definition get_collection (name : string) : M (list Doc) := λ w,
  match db w with
  | Some d => (Ok (collection name d), w)
  | None => (Raise TypeError, w)
  end.

(** [db[name].find_one(q)] *)
Definition coll_find_one (name : string) (q : query) : M (option Doc) :=
  docs ← get_collection name; mret (find_one q docs).

Definition put_collection (name : string) (docs : list Doc) : M unit := λ w,
  (Ok (), set_collection name docs w).

(** [db[name].update_one(q, u)] *)
Definition coll_update_one (name : string) (q : query) (u : update) : M unit :=
  docs ← get_collection name;
  match update_one q u docs return M unit with
  | Some docs' => put_collection name docs'
  | None => raise WriteError
  end.

(** Modelled from the spec: the handle [db] comes from the module
    [database], which is not among the sources; it stands for the document
    store, and a configured handle counts as true where a handler tests
    its truth value (line 204). *)
Definition db_truthy : M bool := λ w, (Ok (bool_decide (is_Some (db w))), w).

(** Modelled from the spec: [create_document], from the same module
    [database]. [create_document(name, data)] stores [data] as a new
    document of the collection [name], assigning its identifier and its
    creation instant, and returns the identifier; without storage it
    fails. *)
Definition create_document (name : string) (data : Doc) : M string := λ w,
  match db w with
  | None => (Raise DatabaseNotAvailable, w)
  | Some d =>
      let new_id := id_supply w (ids_taken w) in
      let doc := <["_id" := VStr new_id]>
                   (<["created_at" := VDatetime (clock w (clock_reads w))]> data) in
      (Ok new_id,
       {| db := Some (<[name := (collection name d ++ [doc])%list]> d);
          clock := clock w; clock_reads := S (clock_reads w);
          id_supply := id_supply w; ids_taken := S (ids_taken w) |})
  end.

(** [l[i]] on a Python list, negative indices counting from the end. *)
Definition py_getitem {A} (l : list A) (i : Z) : result A :=
  let n := Z.of_nat (length l) in
  let j := if i <? 0 then i + n else i in
  if (0 <=? j) && (j <? n)
  then match l !! Z.to_nat j with
       | Some x => Ok x
       | None => Raise IndexError
       end
  else Raise IndexError.

End Runtime.
Export Runtime.

(** ** The service ([main.py]) *)

Module Joybait.

(** *** Seed content (lines 26-66) *)

Record Challenge := {
  _id : string;
  title : string;
  description : string;
  mood : string;
  environment : string;
  confidence : Z
}.

Definition SEED_CHALLENGES : list Challenge := [
  {| _id := "c1";
     title := "Give someone a genuine compliment";
     description := "Keep it specific and sincere.";
     mood := "social"; environment := "public"; confidence := 2 |};
  {| _id := "c2";
     title := "Ask a stranger about their favorite food";
     description := "If you're shy, try a barista or cashier.";
     mood := "social"; environment := "public"; confidence := 3 |};
  {| _id := "c3";
     title := "Sit alone at a café and smile at someone nearby";
     description := "A gentle moment of openness.";
     mood := "solo"; environment := "public"; confidence := 1 |};
  {| _id := "c4";
     title := "Send a kind message to a friend you haven't talked to in a while";
     description := "Low-pressure, high-warmth.";
     mood := "uplifting"; environment := "home"; confidence := 1 |}
].

Record Badge := {
  badge_id : string;      (* "id" *)
  badge_name : string;    (* "name" *)
  requirement : Z
}.

Definition BADGES : list Badge := [
  {| badge_id := "first"; badge_name := "First Step"; requirement := 1 |};
  {| badge_id := "week1"; badge_name := "Week One"; requirement := 7 |};
  {| badge_id := "streak5"; badge_name := "On a Roll"; requirement := 5 |}
].

(** *** Request models (lines 73-93) *)

Record ModeRequest := { mode : string }.

Record ChallengeFilter := {
  filter_mood : option string;          (* mood *)
  filter_environment : option string;   (* environment *)
  confidence_min : option Z;
  confidence_max : option Z
}.

Record ReflectionRequest := {
  user_id : string;
  challenge_id : string;
  mood_before : Z;
  mood_after : Z;
  note : option string;
  is_public : bool
}.

(** [payload.model_dump()] *)
Definition model_dump (payload : ReflectionRequest) : Doc :=
  list_to_map [
    ("user_id", VStr (user_id payload));
    ("challenge_id", VStr (challenge_id payload));
    ("mood_before", VInt (mood_before payload));
    ("mood_after", VInt (mood_after payload));
    ("note", from_option VStr VNone (note payload));
    ("is_public", VBool (is_public payload))
  ].

(** [schemas.Reflection]: both moods are constrained to 1..5; the
    validated model dumps to the same fields. *)
Definition ReflectionSchema (payload : ReflectionRequest) : result Doc :=
  if (1 <=? mood_before payload) && (mood_before payload <=? 5)
     && (1 <=? mood_after payload) && (mood_after payload <=? 5)
  then Ok (model_dump payload)
  else Raise ValidationError.

(** *** Challenges (lines 163-185) *)

(** Truth value of an [Optional[str]]: [None] and the empty string are false. *)
Definition str_truthy (o : option string) : bool :=
  match o with
  | Some s => negb (String.eqb s "")
  | None => false
  end.

(** Lines 166-174, over the catalog the handler starts from. *)
Definition filter_candidates (filters : ChallengeFilter) (catalog : list Challenge)
  : list Challenge :=
  let candidates := catalog in
  let candidates :=
    if str_truthy (filter_mood filters)
    then List.filter (λ c, bool_decide (Some (mood c) = filter_mood filters)) candidates
    else candidates in
  let candidates :=
    if str_truthy (filter_environment filters)
    then List.filter (λ c, bool_decide (Some (environment c) = filter_environment filters))
           candidates
    else candidates in
  let candidates :=
    match confidence_min filters with
    | Some lo => List.filter (λ c, lo <=? confidence c) candidates
    | None => candidates
    end in
  let candidates :=
    match confidence_max filters with
    | Some hi => List.filter (λ c, confidence c <=? hi) candidates
    | None => candidates
    end in
  candidates.

Definition no_match : exn :=
  HTTPException 404 "No challenges match those filters yet".

(** Lines 176-181. *)
Definition pick_for_day (candidates : list Challenge) : M Challenge :=
  match candidates with
  | [] => raise no_match
  | _ =>
      now ← utcnow;
      let idx := toordinal (to_date now) mod Z.of_nat (length candidates) in
      lift (py_getitem candidates idx)
  end.

Definition next_challenge (catalog : list Challenge) (filters : ChallengeFilter)
  : M Challenge :=
  pick_for_day (filter_candidates filters catalog).

Definition get_next_challenge (filters : ChallengeFilter) : M Challenge :=
  next_challenge SEED_CHALLENGES filters.

Definition list_challenges : M (list Challenge) := mret SEED_CHALLENGES.

(** The query [{"_id": user_id}] (lines 204, 222 and 237). *)
Definition by_id (user_id : string) : query := [("_id", Equals (VStr user_id))].

(** *** Mode (lines 150-156) *)

Definition not_configured : exn := HTTPException 500 "Database not configured".

Record ModeResponse := { ok : bool; response_mode : string }.

(** The codec options of a handle; [document_class], called without
    arguments, builds a document of the class the handle decodes into. *)
Record CodecOptions := { document_class : unit → Doc }.

(** [db.get_default_codec_options()] on the driver's database handle. The
    handle defines no attribute of that name; attribute access on it
    then yields the collection of that name, and calling a collection
    object raises [TypeError]. The handler reaches the call only behind
    its [db is None] guard. *)
Definition get_default_codec_options : M CodecOptions := raise TypeError.

(** The filter of line 155, from the codec options the call returns. *)
Definition set_mode_filter (options : CodecOptions) (user_id : string) : query :=
  [("_id", OpEq (dict_get (document_class options ()) "_id" (VStr user_id)))].

Definition set_mode (user_id : string) (payload : ModeRequest) : M ModeResponse :=
  none ← db_is_none;
  if (none : bool) then raise not_configured
  else
    options ← get_default_codec_options;
    coll_update_one "user" (set_mode_filter options user_id)
      (Update [("mode", VStr (mode payload))] []);;
    mret {| ok := true; response_mode := mode payload |}.

(** The plain update by identifier, as the sibling queries of lines 204,
    222 and 237 address a user: set the [mode] field of the document whose
    [_id] is the given identifier. *)
Definition set_mode_by_id (user_id : string) (payload : ModeRequest) : M ModeResponse :=
  none ← db_is_none;
  if (none : bool) then raise not_configured
  else
    coll_update_one "user" (by_id user_id)
      (Update [("mode", VStr (mode payload))] []);;
    mret {| ok := true; response_mode := mode payload |}.

(** *** Reflections and XP (lines 192-230) *)

(** Lines 209-210: the calendar date of the last completion, if the
    stored value is an instant. *)
Definition last_date_of (user_doc : Doc) : option date :=
  match dict_get user_doc "last_completed_at" VNone with
  | VDatetime t => Some (to_date t)
  | _ => None
  end.

(** [user_doc.get("streak", 0)] (lines 211 and 243) and
    [user.get("xp", 0)] (line 242). *)
Definition streak_of (user_doc : Doc) : value := dict_get user_doc "streak" (VInt 0).
Definition xp_of (user_doc : Doc) : value := dict_get user_doc "xp" (VInt 0).

(** Line 217: [last_date and (today - last_date).days == 1]. *)
Definition consecutive (last_date : option date) (today : date) : bool :=
  match last_date with
  | Some d => days_between today d =? 1
  | None => false
  end.

(** Lines 209-220: the XP gain and the streak to store, from the user
    document and today's date. *)
Definition xp_and_streak (user_doc : Doc) (today : date) : result (Z * value) :=
  let last_date := last_date_of user_doc in
  let streak := streak_of user_doc in
  if bool_decide (last_date = Some today)
  then Ok (5, streak)
  else
    if consecutive last_date today
    then match as_int streak with
         | Some s => Ok (10, VInt (s + 1))
         | None => Raise TypeError
         end
    else Ok (10, VInt 1).

(** Lines 221-225: the update written back. *)
Definition accrual_update (now : datetime) (streak : value) (xp_gain : Z) : update :=
  Update [("last_completed_at", VDatetime now); ("streak", streak)]
         [("xp", xp_gain)].

Definition submit_reflection (payload : ReflectionRequest) : M string :=
  ref ← lift (ReflectionSchema payload);
  reflection_id ← create_document "reflection" ref;
  none ← db_is_none;
  if (none : bool) then raise not_configured
  else
    _ ← coll_find_one "user" [("_id", OpExists true)];
    configured ← db_truthy;
    user_doc ← (if (configured : bool)
                then coll_find_one "user" (by_id (user_id payload))
                else mret None);
    instant ← utcnow;
    let today := to_date instant in
    match user_doc return M unit with
    | Some user_doc =>
        if dict_truthy user_doc
        then
          '(xp_gain, streak) ← lift (xp_and_streak user_doc today);
          now ← utcnow;
          coll_update_one "user" (by_id (user_id payload))
            (accrual_update now streak xp_gain)
        else mret ()
    | None => mret ()
    end;;
    mret reflection_id.

(** *** Profile (lines 233-269) *)

Definition user_not_found : exn := HTTPException 404 "User not found".

Record Profile := {
  profile_user : Doc;               (* "user" *)
  badges : list Badge;
  recent_reflections : list Doc
}.

(** [v >= n] for an [int] [n]. *)
Definition py_ge (v : value) (n : Z) : result bool :=
  match as_int v with
  | Some x => Ok (n <=? x)
  | None => Raise TypeError
  end.

(** [xp >= b["requirement"] or streak >= b["requirement"]]; the right
    operand is evaluated only when the left one is false. *)
Definition earned (xp streak : value) (b : Badge) : result bool :=
  match py_ge xp (requirement b) with
  | Ok true => Ok true
  | Ok false => py_ge streak (requirement b)
  | Raise e => Raise e
  end.

(** [[b for b in l if p(b)]] *)
Fixpoint comprehension {A} (p : A → result bool) (l : list A) : result (list A) :=
  match l with
  | [] => Ok []
  | b :: rest =>
      match p b with
      | Raise e => Raise e
      | Ok keep =>
          match comprehension p rest with
          | Raise e => Raise e
          | Ok kept => Ok (if keep then b :: kept else kept)
          end
      end
  end.

Definition reflection_view (r : Doc) : Doc :=
  list_to_map [
    ("id", VStr (py_str (dict_get r "_id" VNone)));
    ("challenge_id", dict_get r "challenge_id" VNone);
    ("mood_before", dict_get r "mood_before" VNone);
    ("mood_after", dict_get r "mood_after" VNone);
    ("note", dict_get r "note" VNone);
    ("created_at", dict_get r "created_at" VNone)
  ].

Definition get_profile (user_id : string) : M Profile :=
  none ← db_is_none;
  if (none : bool) then raise not_configured
  else
    user ← coll_find_one "user" (by_id user_id);
    match user with
    | Some user =>
        if dict_truthy user
        then
          let xp := xp_of user in
          let streak := streak_of user in
          badges ← lift (comprehension (earned xp streak) BADGES);
          reflections ← get_collection "reflection";
          let refs :=
            limit 5 (sort_descending "created_at"
                       (find [("user_id", Equals (VStr user_id))] reflections)) in
          mret {| profile_user :=
                    list_to_map [
                      ("_id", VStr user_id);
                      ("name", dict_get user "name" VNone);
                      ("mode", dict_get user "mode" VNone);
                      ("xp", xp);
                      ("streak", streak)
                    ];
                  badges := badges;
                  recent_reflections := map reflection_view refs |}
        else raise user_not_found
    | None => raise user_not_found
    end.

(** *** Joy Gallery (lines 276-292) *)

Definition public_only : query := [("is_public", Equals (VBool true))].

(** Lines 280-282: the documents the cursor yields. *)
Definition gallery_docs (limit : Z) (reflections : list Doc) : list Doc :=
  Mongo.limit (Z.min limit 50)
    (sort_descending "created_at" (find public_only reflections)).

Definition gallery_view (d : Doc) : Doc :=
  list_to_map [
    ("id", VStr (py_str (dict_get d "_id" VNone)));
    ("challenge_id", dict_get d "challenge_id" VNone);
    ("note", dict_get d "note" VNone);
    ("mood_after", dict_get d "mood_after" VNone);
    ("created_at", dict_get d "created_at" VNone)
  ].

Definition gallery (limit : Z) : M (list Doc) :=
  none ← db_is_none;
  if (none : bool) then raise not_configured
  else
    reflections ← get_collection "reflection";
    mret (map gallery_view (gallery_docs limit reflections)).

End Joybait.
Export Joybait.

(** ** Vocabulary of the properties *)

Module Vocabulary.

(** The two clock readings of one [submit_reflection] run, counted from
    the world it starts in: [create_document] takes the first reading,
    line 206 the second (today) and line 223 the third (the instant
    written back). *)
Definition today_of_run (w : World) : date :=
  to_date (clock w (S (clock_reads w))).

Definition refresh_of_run (w : World) : datetime :=
  clock w (S (S (clock_reads w))).

(** The document [create_document] stores for a reflection request. *)
Definition stored_reflection (w : World) (payload : ReflectionRequest) : Doc :=
  <["_id" := VStr (id_supply w (ids_taken w))]>
    (<["created_at" := VDatetime (clock w (clock_reads w))]> (model_dump payload)).

(** A user document after the update of lines 221-225. *)
Definition accrued (u : Doc) (now : datetime) (streak : value) (xp : Z) : Doc :=
  <["xp" := VInt xp]>
    (<["streak" := streak]> (<["last_completed_at" := VDatetime now]> u)).

(** A request model that [schemas.Reflection] accepts. *)
Definition moods_in_range (payload : ReflectionRequest) : Prop :=
  1 <= mood_before payload <= 5 ∧ 1 <= mood_after payload <= 5.

(** A challenge satisfies every constraint that the filter provides
    (every field that is not [None]). *)
Definition satisfies_provided (filters : ChallengeFilter) (c : Challenge) : bool :=
  match filter_mood filters with
  | Some m => bool_decide (mood c = m)
  | None => true
  end
  && match filter_environment filters with
     | Some e => bool_decide (environment c = e)
     | None => true
     end
  && match confidence_min filters with
     | Some lo => lo <=? confidence c
     | None => true
     end
  && match confidence_max filters with
     | Some hi => confidence c <=? hi
     | None => true
     end.

(** The same, with an empty mood or environment string counting as not
    provided. *)
Definition satisfies_applied (filters : ChallengeFilter) (c : Challenge) : bool :=
  match filter_mood filters with
  | Some m => String.eqb m "" || bool_decide (mood c = m)
  | None => true
  end
  && match filter_environment filters with
     | Some e => String.eqb e "" || bool_decide (environment c = e)
     | None => true
     end
  && match confidence_min filters with
     | Some lo => lo <=? confidence c
     | None => true
     end
  && match confidence_max filters with
     | Some hi => confidence c <=? hi
     | None => true
     end.

(** Whether a badge is earned by integer [xp] and [streak]. *)
Definition meets_requirement (xp streak : Z) (b : Badge) : bool :=
  (requirement b <=? xp) || (requirement b <=? streak).

(** A date of the calendar, and the date of the day after it. *)
Definition valid_date (d : date) : Prop :=
  1 <= month d <= 12 ∧ 1 <= day d <= days_in_month (year d) (month d).

Definition tomorrow (d : date) : date :=
  if day d <? days_in_month (year d) (month d)
  then {| year := year d; month := month d; day := day d + 1 |}
  else if month d <? 12
       then {| year := year d; month := month d + 1; day := 1 |}
       else {| year := year d + 1; month := 1; day := 1 |}.

(** The position line 180 computes among [n] candidates. *)
Definition day_index (w : World) (n : nat) : Z :=
  toordinal (to_date (clock w (clock_reads w))) mod Z.of_nat n.

(** [a] may come before [b] in a descending sort on [key]. *)
Definition at_least (key : string) (a b : Doc) : Prop :=
  bson_leb (sort_key key b) (sort_key key a) = true.

(** Newest first on [created_at]. *)
Definition newer_or_equal (a b : Doc) : Prop := at_least "created_at" a b.

(** Unfolds one layer of the handlers' sequencing. *)
Ltac step_monad :=
  unfold mbind, M_bind, mret, M_ret, lift, raise; cbv beta iota.

End Vocabulary.
Export Vocabulary.

(** ** Sample data *)

Module Samples.

Definition jan (d h : Z) : datetime :=
  {| to_date := {| year := 2024; month := 1; day := d |};
     hour := h; minute := 0; second := 0; microsecond := 0 |}.

(** A user who last completed on 2024-01-05 at 10:00 with a streak of 3. *)
Definition ann : Doc :=
  list_to_map [
    ("_id", VStr "u1"); ("name", VStr "Ann"); ("email", VNone);
    ("mode", VNone); ("xp", VInt 40); ("streak", VInt 3);
    ("last_completed_at", VDatetime (jan 5 10))
  ].

(** A world with that user, no reflections, and a clock that stands at
    the given instant. *)
Definition world_at (t : datetime) : World :=
  {| db := Some {[ "user" := [ann] ]};
     clock := λ _, t; clock_reads := 0;
     id_supply := λ n, "r" +:+ pretty n; ids_taken := 0 |}.

Definition reflection_by (uid : string) : ReflectionRequest :=
  {| user_id := uid; challenge_id := "c1"; mood_before := 2; mood_after := 4;
     note := None; is_public := true |}.

Definition no_filter : ChallengeFilter :=
  {| filter_mood := None; filter_environment := None;
     confidence_min := None; confidence_max := None |}.

Definition empty_mood : ChallengeFilter :=
  {| filter_mood := Some ""; filter_environment := None;
     confidence_min := None; confidence_max := None |}.

(** A public reflection created [n] hours into 2024-01-05. *)
Definition public_reflection (n : nat) : Doc :=
  list_to_map [
    ("_id", VStr ("r" +:+ pretty n)); ("user_id", VStr "u1");
    ("challenge_id", VStr "c1"); ("mood_before", VInt 2); ("mood_after", VInt 4);
    ("note", VNone); ("is_public", VBool true);
    ("created_at", VDatetime (jan 5 (Z.of_nat n)))
  ].

(** A store holding 51 public reflections. *)
Definition crowded_world : World :=
  {| db := Some {[ "user" := [ann];
                   "reflection" := map public_reflection (seq 0 51) ]};
     clock := λ _, jan 8 9; clock_reads := 0;
     id_supply := λ n, "r" +:+ pretty n; ids_taken := 51 |}.

End Samples.

(** ** Signup ([main.py] lines 136-148, [schemas.User]) *)

Module Auth.

Record SignupRequest := {
  signup_name : option string;     (* name *)
  signup_email : option string;    (* email *)
  signup_mode : option string      (* mode *)
}.

(** [Mode = Literal["casual", "challenge"]], as an [Optional] field. *)
Definition mode_allowed (m : option string) : bool :=
  match m with
  | None => true
  | Some s => String.eqb s "casual" || String.eqb s "challenge"
  end.

Section Preferences.

(** The stored form of the empty [preferences] mapping [{}]. Documents
    here hold scalar values only, so the value standing for it is left
    open. *)
Variable empty_preferences : value.

(** [schemas.User(name=..., email=..., mode=..., xp=..., streak=...,
    preferences={})] followed by its dump: [mode] must be one of the two
    literals or [None], [xp] and [streak] must not be negative, and
    [last_completed_at] defaults to [None]. *)
Definition UserSchema (name email mode : option string) (xp streak : Z)
  : result Doc :=
  if mode_allowed mode && (0 <=? xp) && (0 <=? streak)
  then Ok (list_to_map [
             ("name", from_option VStr VNone name);
             ("email", from_option VStr VNone email);
             ("mode", from_option VStr VNone mode);
             ("xp", VInt xp);
             ("streak", VInt streak);
             ("last_completed_at", VNone);
             ("preferences", empty_preferences)
           ])
  else Raise ValidationError.

(** Lines 137-148; the response [{"user_id": user_id}] is given by its
    one field. *)
Definition signup (payload : SignupRequest) : M string :=
  user ← lift (UserSchema (signup_name payload) (signup_email payload)
                 (signup_mode payload) 0 0);
  create_document "user" user.

End Preferences.

End Auth.
Export Auth.

(** ** Further vocabulary *)

Module Scenarios.

(** The date [k] days after [d]. *)
Fixpoint days_later (k : nat) (d : date) : date :=
  match k with
  | O => d
  | S k' => tomorrow (days_later k' d)
  end.

(** The instant the next clock reading of a world returns. *)
Definition next_instant (w : World) : datetime := clock w (clock_reads w).

(** The world a run of [submit_reflection] leaves behind when it gets
    past both clock readings: three readings and one identifier later,
    with the given store. *)
Definition after_reflection (w : World) (d : Database) : World :=
  {| db := Some d; clock := clock w;
     clock_reads := S (S (S (clock_reads w)));
     id_supply := id_supply w; ids_taken := S (ids_taken w) |}.

(** The store with one more reflection. *)
Definition with_reflection (st : Database) (r : Doc) : Database :=
  <["reflection" := (collection "reflection" st ++ [r])%list]> st.

(** The user document [signup] stores. *)
Definition new_user (empty_preferences : value) (w : World) (payload : SignupRequest)
  : Doc :=
  <["_id" := VStr (id_supply w (ids_taken w))]>
    (<["created_at" := VDatetime (clock w (clock_reads w))]>
       (list_to_map [
          ("name", from_option VStr VNone (signup_name payload));
          ("email", from_option VStr VNone (signup_email payload));
          ("mode", from_option VStr VNone (signup_mode payload));
          ("xp", VInt 0);
          ("streak", VInt 0);
          ("last_completed_at", VNone);
          ("preferences", empty_preferences)
        ])).

(** The world [signup] leaves behind. *)
Definition after_signup (empty_preferences : value) (w : World) (payload : SignupRequest)
  : World :=
  {| db := (λ d : Database,
              <["user" := (collection "user" d
                           ++ [new_user empty_preferences w payload])%list]> d)
           <$> db w;
     clock := clock w; clock_reads := S (clock_reads w);
     id_supply := id_supply w; ids_taken := S (ids_taken w) |}.

(** The keys a gallery entry carries. *)
Definition gallery_keys : gset string :=
  {[ "id"; "challenge_id"; "note"; "mood_after"; "created_at" ]}.

(** The invariant between a user's streak and xp. *)
Definition streak_within_xp (x s : Z) : Prop := 0 <= s ∧ 10 * s <= x.

End Scenarios.
Export Scenarios.

(** ** More sample data *)

Module MoreSamples.

(** A second user, who has never completed anything. *)
Definition bob : Doc :=
  list_to_map [
    ("_id", VStr "u2"); ("name", VStr "Bob"); ("email", VNone);
    ("mode", VStr "casual"); ("xp", VInt 0); ("streak", VInt 0);
    ("last_completed_at", VNone)
  ].

(** A private and a public reflection of the first user. *)
Definition private_note : Doc :=
  list_to_map [
    ("_id", VStr "p0"); ("user_id", VStr "u1");
    ("challenge_id", VStr "c2"); ("mood_before", VInt 1); ("mood_after", VInt 3);
    ("note", VStr "for me only"); ("is_public", VBool false);
    ("created_at", VDatetime (Samples.jan 6 8))
  ].

(** Two users, three public reflections and a private one; the clock
    advances by one hour per reading from 2024-01-06 09:00. *)
Definition busy_world : World :=
  {| db := Some {[ "user" := [Samples.ann; bob];
                   "reflection" := (map Samples.public_reflection (seq 0 3)
                                    ++ [private_note])%list ]};
     clock := λ n, Samples.jan 6 (9 + Z.of_nat n); clock_reads := 0;
     id_supply := λ n, "n" +:+ pretty n; ids_taken := 0 |}.

Definition unconfigured_world : World :=
  {| db := None; clock := λ _, Samples.jan 6 9; clock_reads := 0;
     id_supply := λ n, "n" +:+ pretty n; ids_taken := 0 |}.

Definition private_reflection_by (uid : string) : ReflectionRequest :=
  {| user_id := uid; challenge_id := "c3"; mood_before := 3; mood_after := 5;
     note := Some "quiet"; is_public := false |}.

Definition out_of_range_reflection : ReflectionRequest :=
  {| user_id := "u1"; challenge_id := "c1"; mood_before := 0; mood_after := 9;
     note := None; is_public := true |}.

Definition newcomer : SignupRequest :=
  {| signup_name := Some "Cy"; signup_email := None; signup_mode := Some "challenge" |}.

Definition reversed_bounds : ChallengeFilter :=
  {| filter_mood := None; filter_environment := None;
     confidence_min := Some 4; confidence_max := Some 2 |}.

End MoreSamples.

(* ===================================================================== *)
(** * Part II: properties                                                 *)
(* ===================================================================== *)

(** ** The calendar *)

Example toordinal_2024_01_05 : toordinal (Date 2024 1 5) = 738890.
Proof. reflexivity. Qed.

Example leap_day_is_followed_by_march : days_between (Date 2024 3 1) (Date 2024 2 29) = 1.
Proof. reflexivity. Qed.

Example new_year_follows_december : days_between (Date 2024 1 1) (Date 2023 12 31) = 1.
Proof. reflexivity. Qed.

Lemma days_before_year_succ (y : Z) :
  days_before_year (y + 1) = days_before_year y + (if is_leap y then 366 else 365).
Proof.
  unfold days_before_year, is_leap. replace (y + 1 - 1) with y by lia.
  destruct (Z.eqb_spec (y mod 4) 0), (Z.eqb_spec (y mod 100) 0),
    (Z.eqb_spec (y mod 400) 0); simpl;
    Z.div_mod_to_equations; lia.
Qed.

(** The ordinal counts calendar days: the day after a date has the next
    ordinal, across month ends, leap days and year ends. *)
Lemma toordinal_tomorrow (d : date) :
  valid_date d → toordinal (tomorrow d) = toordinal d + 1.
Proof.
  destruct d as [y m dd]. unfold valid_date, tomorrow, toordinal, ymd2ord. simpl.
  intros [Hm Hd].
  assert (m = 1 ∨ m = 2 ∨ m = 3 ∨ m = 4 ∨ m = 5 ∨ m = 6 ∨ m = 7 ∨ m = 8 ∨ m = 9
          ∨ m = 10 ∨ m = 11 ∨ m = 12) as Hcases by lia.
  destruct (Z.ltb_spec dd (days_in_month y m)) as [Hlt | Hge]; simpl; [lia |].
  assert (dd = days_in_month y m) as -> by lia. clear Hd Hge.
  repeat (destruct Hcases as [-> | Hcases]); try subst m;
    unfold days_in_month, days_before_month; simpl;
    try rewrite days_before_year_succ; destruct (is_leap y); simpl; lia.
Qed.

Lemma tomorrow_is_consecutive (d : date) :
  valid_date d → consecutive (Some d) (tomorrow d) = true ∧ tomorrow d ≠ d.
Proof.
  intros Hvalid. pose proof (toordinal_tomorrow d Hvalid) as Hnext. split.
  - unfold consecutive, days_between. apply Z.eqb_eq. lia.
  - intros Heq. rewrite Heq in Hnext. lia.
Qed.

(** ** Python lists *)

Lemma py_getitem_in_range {A} (l : list A) (i : Z) :
  0 <= i < Z.of_nat (length l) →
  ∃ x, l !! Z.to_nat i = Some x ∧ py_getitem l i = Ok x.
Proof.
  intros Hi. unfold py_getitem.
  destruct (Z.ltb_spec i 0) as [Hneg | _]; [lia |].
  destruct (Z.leb_spec 0 i) as [_ | Hlt]; [| lia].
  destruct (Z.ltb_spec i (Z.of_nat (length l))) as [_ | Hge]; [| lia].
  destruct (lookup_lt_is_Some_2 l (Z.to_nat i)) as [x Hx]; [lia |].
  exists x. simpl. by rewrite Hx.
Qed.

Lemma filter_filter_andb {A} (p q : A → bool) (l : list A) :
  List.filter q (List.filter p l) = List.filter (λ x, p x && q x) l.
Proof.
  induction l as [| x l IH]; [done |].
  simpl. destruct (p x); simpl; [destruct (q x) |]; by rewrite IH.
Qed.

Lemma filter_all_true {A} (p : A → bool) (l : list A) :
  (∀ x, p x = true) → List.filter p l = l.
Proof.
  intros Hp. induction l as [| x l IH]; [done |].
  simpl. by rewrite Hp, IH.
Qed.

Lemma In_firstn {A} (n : nat) (l : list A) (x : A) : In x (firstn n l) → In x l.
Proof.
  revert n. induction l as [| y l IH]; intros [| n]; simpl; try tauto.
  intros [-> | Hin]; [by left | right; by eapply IH].
Qed.

Lemma filter_is_sublist {A} (p : A → bool) (l : list A) :
  sublist (List.filter p l) l.
Proof.
  induction l as [| x l IH]; simpl; [constructor |].
  destruct (p x); by constructor.
Qed.

(** ** Challenge selection *)

Lemma pick_for_day_nonempty (candidates : list Challenge) (w : World) :
  candidates ≠ [] →
  ∃ c, candidates !! Z.to_nat (day_index w (length candidates)) = Some c
       ∧ (pick_for_day candidates w).1 = Ok c.
Proof.
  intros Hne.
  destruct (py_getitem_in_range candidates (day_index w (length candidates)))
    as (c & Hc & Hget).
  { apply Z.mod_pos_bound. destruct candidates; [done | simpl; lia]. }
  exists c. split; [done |].
  destruct candidates as [| c0 rest]; [done |].
  unfold pick_for_day, mbind, M_bind, utcnow, lift.
  unfold day_index in Hget. simpl in *. by rewrite Hget.
Qed.

Lemma pick_for_day_empty (w : World) : pick_for_day [] w = (Raise no_match, w).
Proof. reflexivity. Qed.

(** C3: when the candidate sequence is not empty, the handler returns
    the candidate whose position in filtered order is the proleptic
    Gregorian ordinal of the current UTC date modulo the number of
    candidates; any other run on the same calendar date, whatever the time
    of day, returns the same challenge. *)
Theorem rotation_by_ordinal_day
    (catalog : list Challenge) (filters : ChallengeFilter) (w : World) :
  filter_candidates filters catalog ≠ [] →
  ∃ c,
    filter_candidates filters catalog
      !! Z.to_nat (toordinal (to_date (clock w (clock_reads w)))
                   mod Z.of_nat (length (filter_candidates filters catalog)))
    = Some c
    ∧ (next_challenge catalog filters w).1 = Ok c
    ∧ ∀ w', to_date (clock w' (clock_reads w')) = to_date (clock w (clock_reads w)) →
            (next_challenge catalog filters w').1 = Ok c.
Proof.
  intros Hne.
  destruct (pick_for_day_nonempty _ w Hne) as (c & Hc & Hrun).
  exists c. repeat split; [done | done |].
  intros w' Hsame.
  destruct (pick_for_day_nonempty _ w' Hne) as (c' & Hc' & Hrun').
  unfold next_challenge. rewrite Hrun'. f_equal.
  unfold day_index in Hc, Hc'. rewrite Hsame in Hc'. congruence.
Qed.

Lemma rotation_by_ordinal_day_witness :
  ∃ c,
    filter_candidates Samples.no_filter SEED_CHALLENGES
      !! Z.to_nat (toordinal (to_date (clock (Samples.world_at (Samples.jan 5 23))
                                         (clock_reads (Samples.world_at (Samples.jan 5 23)))))
                   mod Z.of_nat (length (filter_candidates Samples.no_filter SEED_CHALLENGES)))
    = Some c
    ∧ (next_challenge SEED_CHALLENGES Samples.no_filter
         (Samples.world_at (Samples.jan 5 23))).1 = Ok c
    ∧ ∀ w', to_date (clock w' (clock_reads w'))
            = to_date (clock (Samples.world_at (Samples.jan 5 23))
                         (clock_reads (Samples.world_at (Samples.jan 5 23)))) →
            (next_challenge SEED_CHALLENGES Samples.no_filter w').1 = Ok c.
Proof.
  apply (rotation_by_ordinal_day SEED_CHALLENGES Samples.no_filter
           (Samples.world_at (Samples.jan 5 23))).
  vm_compute. discriminate.
Defined.

(** The candidates are the catalog entries that pass the constraints the
    handler applies, in catalog order. *)
Lemma filter_candidates_as_filter (filters : ChallengeFilter) (catalog : list Challenge) :
  filter_candidates filters catalog = List.filter (satisfies_applied filters) catalog.
Proof.
  unfold filter_candidates, satisfies_applied, str_truthy.
  destruct filters as [[m |] [e |] [lo |] [hi |]]; simpl;
    try destruct (String.eqb_spec m ""); try destruct (String.eqb_spec e "");
    simpl; rewrite ?filter_filter_andb;
    try (symmetry; apply filter_all_true; done);
    apply List.filter_ext; intros c; rewrite ?andb_true_r; simpl;
    repeat match goal with
           | |- context [bool_decide (Some ?a = Some ?b)] =>
               rewrite (bool_decide_ext (Some a = Some b) (a = b)) by naive_solver
           end; rewrite ?andb_assoc; done.
Qed.

Lemma satisfies_applied_nonempty (filters : ChallengeFilter) (c : Challenge) :
  filter_mood filters ≠ Some "" →
  filter_environment filters ≠ Some "" →
  satisfies_applied filters c = satisfies_provided filters c.
Proof.
  intros Hm He. unfold satisfies_applied, satisfies_provided.
  destruct filters as [[m |] [e |] lo hi]; simpl in *;
    try destruct (String.eqb_spec m ""); try destruct (String.eqb_spec e "");
    simpl; congruence.
Qed.

(** C4, as the code has it: the candidates are exactly the catalog
    challenges that satisfy every constraint the handler applies, in
    catalog order, where a mood or environment given as the empty string
    is not applied; for filters without such an empty string these are
    the challenges satisfying every provided constraint. *)
Theorem candidates_satisfy_applied_constraints
    (catalog : list Challenge) (filters : ChallengeFilter) :
  filter_candidates filters catalog = List.filter (satisfies_applied filters) catalog
  ∧ (∀ c, In c (filter_candidates filters catalog)
          ↔ In c catalog ∧ satisfies_applied filters c = true)
  ∧ sublist (filter_candidates filters catalog) catalog
  ∧ (filter_mood filters ≠ Some "" → filter_environment filters ≠ Some "" →
     filter_candidates filters catalog
     = List.filter (satisfies_provided filters) catalog).
Proof.
  rewrite filter_candidates_as_filter. split; [done |]. split; [| split].
  - intros c. apply filter_In.
  - apply filter_is_sublist.
  - intros Hm He. apply List.filter_ext. intros c.
    by apply satisfies_applied_nonempty.
Qed.

(** C4, as stated, fails for a mood given as the empty string: the whole
    catalog stays in the candidate set although no challenge has that
    mood. *)
Lemma empty_mood_is_not_applied :
  filter_candidates Samples.empty_mood SEED_CHALLENGES = SEED_CHALLENGES
  ∧ List.filter (satisfies_provided Samples.empty_mood) SEED_CHALLENGES = []
  ∧ filter_candidates Samples.empty_mood SEED_CHALLENGES
    ≠ List.filter (satisfies_provided Samples.empty_mood) SEED_CHALLENGES.
Proof. split; [reflexivity | split; [reflexivity | discriminate]]. Qed.

(** C5: with an empty candidate set the handler raises the 404 "no
    match" error and returns no challenge; with a non-empty one it raises
    nothing and returns one of the candidates. *)
Theorem no_match_exactly_on_empty_candidates
    (catalog : list Challenge) (filters : ChallengeFilter) (w : World) :
  (filter_candidates filters catalog = [] →
   next_challenge catalog filters w
   = (Raise (HTTPException 404 "No challenges match those filters yet"), w))
  ∧ (filter_candidates filters catalog ≠ [] →
     ∃ c, (next_challenge catalog filters w).1 = Ok c
          ∧ In c (filter_candidates filters catalog)).
Proof.
  unfold next_challenge. split.
  - intros ->. apply pick_for_day_empty.
  - intros Hne.
    destruct (pick_for_day_nonempty _ w Hne) as (c & Hc & Hrun).
    exists c. split; [done |].
    apply list_elem_of_In. by eapply list_elem_of_lookup_2.
Qed.

(** ** Queries and updates *)

Lemma matches_by_id (uid : string) (d : Doc) :
  matches (by_id uid) d = true ↔ d !! "_id" = Some (VStr uid).
Proof.
  unfold matches, by_id, field_matches, value_matches. simpl.
  rewrite andb_true_r.
  destruct (d !! "_id") as [v |]; simpl.
  - rewrite bool_decide_eq_true. naive_solver.
  - split; discriminate.
Qed.

Lemma find_one_Some (q : query) (coll : list Doc) (d : Doc) :
  find_one q coll = Some d → In d coll ∧ matches q d = true.
Proof. apply List.find_some. Qed.

Lemma found_by_id_is_truthy (uid : string) (coll : list Doc) (u : Doc) :
  find_one (by_id uid) coll = Some u → dict_truthy u = true.
Proof.
  intros [_ Hm]%find_one_Some. apply matches_by_id in Hm.
  unfold dict_truthy. apply bool_decide_eq_true. intros ->.
  by rewrite lookup_empty in Hm.
Qed.

Lemma update_one_no_match (q : query) (u : update) (coll : list Doc) :
  find_one q coll = None → update_one q u coll = Some coll.
Proof.
  unfold find_one. induction coll as [| d rest IH]; [done |].
  simpl. destruct (matches q d); [done |].
  intros Hrest. by rewrite (IH Hrest).
Qed.

(** An update that keeps the document matching replaces the first match
    and nothing else; the same query then finds the updated document. *)
Lemma update_one_first_match (q : query) (u : update) (coll : list Doc) (d d' : Doc) :
  find_one q coll = Some d →
  apply_update u d = Some d' →
  matches q d' = true →
  ∃ before after,
    coll = (before ++ d :: after)%list
    ∧ find_one q before = None
    ∧ update_one q u coll = Some (before ++ d' :: after)%list
    ∧ find_one q (before ++ d' :: after)%list = Some d'.
Proof.
  unfold find_one. intros Hfind Hupd Hkeep.
  induction coll as [| x rest IH]; [done |].
  simpl in Hfind. destruct (matches q x) eqn:Hx.
  - injection Hfind as ->. exists [], rest. simpl.
    by rewrite Hx, Hupd, Hkeep.
  - destruct (IH Hfind) as (before & after & -> & Hnone & Hone & Hagain).
    exists (x :: before), after. simpl. by rewrite Hx, Hone, Hnone, Hagain.
Qed.

Lemma apply_accrual_update (u : Doc) (now : datetime) (streak : value) (gain x : Z) :
  xp_of u = VInt x →
  apply_update (accrual_update now streak gain) u = Some (accrued u now streak (x + gain)).
Proof.
  unfold xp_of, dict_get, apply_update, accrual_update, accrued, apply_inc, apply_set.
  simpl. unfold apply_inc. simpl. rewrite !lookup_insert_ne by done.
  destruct (u !! "xp") as [[] |]; simpl; intros Hx; try discriminate;
    injection Hx as <-; done.
Qed.

Lemma accrued_keeps_id (u : Doc) (now : datetime) (streak : value) (xp : Z) :
  accrued u now streak xp !! "_id" = u !! "_id".
Proof. unfold accrued. by rewrite !lookup_insert_ne. Qed.

Lemma ReflectionSchema_accepts (payload : ReflectionRequest) :
  moods_in_range payload → ReflectionSchema payload = Ok (model_dump payload).
Proof.
  intros [[? ?] [? ?]]. unfold ReflectionSchema.
  repeat match goal with
         | |- context [?a <=? ?b] => destruct (Z.leb_spec a b); [| lia]
         end.
  done.
Qed.

Lemma collection_insert_eq (name : string) (docs : list Doc) (d : Database) :
  collection name (<[name := docs]> d) = docs.
Proof. unfold collection. by rewrite lookup_insert_eq. Qed.

Lemma collection_insert_ne (name other : string) (docs : list Doc) (d : Database) :
  other ≠ name → collection name (<[other := docs]> d) = collection name d.
Proof. intros Hne. unfold collection. by rewrite lookup_insert_ne. Qed.

(** ** One run of [submit_reflection] *)

(** The state the store is left in when the user is found. *)
Lemma submit_reflection_found
    (w : World) (st : Database) (payload : ReflectionRequest) (u : Doc)
    (gain x : Z) (streak : value) :
  db w = Some st →
  moods_in_range payload →
  find_one (by_id (user_id payload)) (collection "user" st) = Some u →
  xp_of u = VInt x →
  xp_and_streak u (today_of_run w) = Ok (gain, streak) →
  ∃ w' st',
    submit_reflection payload w = (Ok (id_supply w (ids_taken w)), w')
    ∧ db w' = Some st'
    ∧ find_one (by_id (user_id payload)) (collection "user" st')
      = Some (accrued u (refresh_of_run w) streak (x + gain))
    ∧ collection "reflection" st'
      = (collection "reflection" st ++ [stored_reflection w payload])%list
    ∧ ∃ before after,
        collection "user" st = (before ++ u :: after)%list
        ∧ collection "user" st'
          = (before ++ accrued u (refresh_of_run w) streak (x + gain) :: after)%list.
Proof.
  intros Hdb Hvalid Hfind Hxp Hstep.
  destruct w as [d ck reads ids taken]. simpl in Hdb. subst d.
  unfold today_of_run, refresh_of_run, stored_reflection in *. simpl in *.
  pose proof (found_by_id_is_truthy _ _ _ Hfind) as Htruthy.
  pose proof (apply_accrual_update u (ck (S (S reads))) streak gain x Hxp) as Hupd.
  destruct (update_one_first_match _ _ _ _ _ Hfind Hupd)
    as (before & after & Hsplit & Hnone & Hone & Hagain).
  { apply matches_by_id. rewrite accrued_keeps_id.
    apply matches_by_id. by apply find_one_Some in Hfind as [_ ?]. }
  eexists _, _.
  unfold submit_reflection, mbind, M_bind, mret, M_ret, lift, create_document,
    db_is_none, db_truthy, coll_find_one, coll_update_one, get_collection,
    put_collection, set_collection, utcnow, raise.
  rewrite (ReflectionSchema_accepts _ Hvalid). simpl.
  rewrite collection_insert_ne by done.
  rewrite Hfind, Htruthy, Hstep. simpl.
  unfold mbind, M_bind. simpl.
  rewrite collection_insert_ne by done. rewrite Hone. simpl.
  split; [reflexivity |]. split; [reflexivity |].
  rewrite collection_insert_eq. split; [exact Hagain |].
  split; [rewrite collection_insert_ne by done; by rewrite collection_insert_eq |].
  by exists before, after.
Qed.

Lemma xp_of_accrued (u : Doc) (now : datetime) (streak : value) (xp : Z) :
  xp_of (accrued u now streak xp) = VInt xp.
Proof. unfold xp_of, dict_get, accrued. by rewrite lookup_insert_eq. Qed.

Lemma streak_of_accrued (u : Doc) (now : datetime) (streak : value) (xp : Z) :
  streak_of (accrued u now streak xp) = streak.
Proof.
  unfold streak_of, dict_get, accrued.
  rewrite lookup_insert_ne by done. by rewrite lookup_insert_eq.
Qed.

Lemma last_completed_at_accrued (u : Doc) (now : datetime) (streak : value) (xp : Z) :
  accrued u now streak xp !! "last_completed_at" = Some (VDatetime now).
Proof.
  unfold accrued. rewrite !lookup_insert_ne by done. by rewrite lookup_insert_eq.
Qed.

Lemma xp_and_streak_same_day (u : Doc) (today : date) :
  last_date_of u = Some today → xp_and_streak u today = Ok (5, streak_of u).
Proof.
  intros Hlast. unfold xp_and_streak. by rewrite bool_decide_eq_true_2.
Qed.

Lemma xp_and_streak_other_day (u : Doc) (today : date) (s : Z) :
  last_date_of u ≠ Some today →
  streak_of u = VInt s →
  xp_and_streak u today
  = Ok (10, VInt (if consecutive (last_date_of u) today then s + 1 else 1)).
Proof.
  intros Hlast Hs. unfold xp_and_streak.
  rewrite bool_decide_eq_false_2 by done. rewrite Hs. simpl.
  by destruct (consecutive (last_date_of u) today).
Qed.

(** A completion on the day after the last one continues the streak. *)
Lemma xp_and_streak_next_day (u : Doc) (d : date) (s : Z) :
  last_date_of u = Some d →
  valid_date d →
  streak_of u = VInt s →
  xp_and_streak u (tomorrow d) = Ok (10, VInt (s + 1)).
Proof.
  intros Hlast Hvalid Hs.
  destruct (tomorrow_is_consecutive d Hvalid) as [Hnext Hne].
  rewrite (xp_and_streak_other_day u (tomorrow d) s); [| congruence | done].
  by rewrite Hlast, Hnext.
Qed.

(** C1: when the user is found and the date of the stored
    [last_completed_at] is today's UTC date, the run adds exactly 5 to
    the user's xp, stores the streak it read, and sets
    [last_completed_at] to the instant read for the update. *)
Theorem same_day_completion
    (w : World) (st : Database) (payload : ReflectionRequest) (u : Doc) (x : Z) :
  db w = Some st →
  moods_in_range payload →
  find_one (by_id (user_id payload)) (collection "user" st) = Some u →
  xp_of u = VInt x →
  last_date_of u = Some (today_of_run w) →
  ∃ w' st' u',
    submit_reflection payload w = (Ok (id_supply w (ids_taken w)), w')
    ∧ db w' = Some st'
    ∧ find_one (by_id (user_id payload)) (collection "user" st') = Some u'
    ∧ u' = accrued u (refresh_of_run w) (streak_of u) (x + 5)
    ∧ xp_of u' = VInt (x + 5)
    ∧ streak_of u' = streak_of u
    ∧ u' !! "last_completed_at" = Some (VDatetime (refresh_of_run w)).
Proof.
  intros Hdb Hvalid Hfind Hxp Hsame.
  destruct (submit_reflection_found w st payload u 5 x (streak_of u))
    as (w' & st' & Hrun & Hdb' & Hfind' & _); try done.
  { by apply xp_and_streak_same_day. }
  exists w', st', (accrued u (refresh_of_run w) (streak_of u) (x + 5)).
  repeat split; try done.
  - apply xp_of_accrued.
  - apply streak_of_accrued.
  - apply last_completed_at_accrued.
Qed.


(** C9: in every run that finds the user, the xp grows by a positive
    gain (5 or 10), and from a non-negative streak the stored streak is
    the old one, the old one plus one, or exactly 1, hence never
    negative. *)
Theorem accrual_grows_xp_and_keeps_streak_nonnegative
    (w : World) (st : Database) (payload : ReflectionRequest) (u : Doc) (x s : Z) :
  db w = Some st →
  moods_in_range payload →
  find_one (by_id (user_id payload)) (collection "user" st) = Some u →
  xp_of u = VInt x →
  streak_of u = VInt s →
  0 <= s →
  ∃ w' st' u' x' s',
    submit_reflection payload w = (Ok (id_supply w (ids_taken w)), w')
    ∧ db w' = Some st'
    ∧ find_one (by_id (user_id payload)) (collection "user" st') = Some u'
    ∧ xp_of u' = VInt x'
    ∧ streak_of u' = VInt s'
    ∧ (x' = x + 5 ∨ x' = x + 10)
    ∧ x < x'
    ∧ (s' = s ∨ s' = s + 1 ∨ s' = 1)
    ∧ 0 <= s'.
Proof.
  intros Hdb Hvalid Hfind Hxp Hs Hnonneg.
  destruct (decide (last_date_of u = Some (today_of_run w))) as [Hsame | Hother].
  - destruct (submit_reflection_found w st payload u 5 x (VInt s))
      as (w' & st' & Hrun & Hdb' & Hfind' & _); try done.
    { rewrite <- Hs. by apply xp_and_streak_same_day. }
    exists w', st', (accrued u (refresh_of_run w) (VInt s) (x + 5)), (x + 5), s.
    rewrite xp_of_accrued, streak_of_accrued.
    repeat split; try done; auto; lia.
  - set (s' := if consecutive (last_date_of u) (today_of_run w) then s + 1 else 1).
    destruct (submit_reflection_found w st payload u 10 x (VInt s'))
      as (w' & st' & Hrun & Hdb' & Hfind' & _); try done.
    { by apply xp_and_streak_other_day. }
    exists w', st', (accrued u (refresh_of_run w) (VInt s') (x + 10)), (x + 10), s'.
    rewrite xp_of_accrued, streak_of_accrued.
    repeat split; try done; auto; subst s';
      destruct (consecutive (last_date_of u) (today_of_run w)); auto; lia.
Qed.

(** C8: when storage is configured, the request is one the schema
    accepts and no stored user has the given identifier, the reflection is
    appended to the reflection collection, its identifier is returned
    without any error, and nothing else in the store changes; in
    particular the user collection is exactly what it was. *)
Theorem missing_user_skips_accrual
    (w : World) (st : Database) (payload : ReflectionRequest) :
  db w = Some st →
  moods_in_range payload →
  find_one (by_id (user_id payload)) (collection "user" st) = None →
  ∃ w',
    submit_reflection payload w = (Ok (id_supply w (ids_taken w)), w')
    ∧ db w'
      = Some (<["reflection" :=
                (collection "reflection" st ++ [stored_reflection w payload])%list]> st)
    ∧ (∀ st', db w' = Some st' → collection "user" st' = collection "user" st)
    ∧ stored_reflection w payload !! "_id" = Some (VStr (id_supply w (ids_taken w)))
    ∧ stored_reflection w payload !! "user_id" = Some (VStr (user_id payload)).
Proof.
  intros Hdb Hvalid Hnone.
  destruct w as [d ck reads ids taken]. simpl in Hdb. subst d.
  unfold stored_reflection. simpl.
  eexists.
  unfold submit_reflection, mbind, M_bind, mret, M_ret, lift, create_document,
    db_is_none, db_truthy, coll_find_one, coll_update_one, get_collection,
    put_collection, set_collection, utcnow, raise.
  rewrite (ReflectionSchema_accepts _ Hvalid). simpl.
  rewrite collection_insert_ne by done. rewrite Hnone. simpl.
  split; [reflexivity |]. split; [reflexivity |]. split; [| split].
  - intros st' [= <-]. by rewrite collection_insert_ne.
  - by rewrite lookup_insert_eq.
  - rewrite !lookup_insert_ne by done. unfold model_dump. simpl.
    by rewrite lookup_insert_eq.
Qed.

(** *** Runs that stop early *)

(** A mood outside 1..5 is refused by the schema at line 195, before
    anything is stored. *)
Lemma submit_reflection_out_of_range (w : World) (payload : ReflectionRequest) :
  ¬ moods_in_range payload →
  submit_reflection payload w = (Raise ValidationError, w).
Proof.
  intros Hbad. unfold submit_reflection. step_monad.
  unfold ReflectionSchema.
  destruct ((1 <=? mood_before payload) && (mood_before payload <=? 5)
            && (1 <=? mood_after payload) && (mood_after payload <=? 5)) eqn:Hok;
    [| reflexivity].
  exfalso. apply Hbad. unfold moods_in_range.
  rewrite !andb_true_iff, !Z.leb_le in Hok. lia.
Qed.

(** Without storage nothing is stored and the run fails. *)
Lemma submit_reflection_without_storage (w : World) (payload : ReflectionRequest) :
  db w = None →
  ∃ e, submit_reflection payload w = (Raise e, w).
Proof.
  intros Hdb. unfold submit_reflection, create_document. step_monad.
  destruct (ReflectionSchema payload); rewrite ?Hdb; eauto.
Qed.

(** *** The accrual properties at the sample user *)

Lemma same_day_completion_witness :
  ∃ w' st' u',
    submit_reflection (Samples.reflection_by "u1") (Samples.world_at (Samples.jan 5 23))
    = (Ok (id_supply (Samples.world_at (Samples.jan 5 23))
             (ids_taken (Samples.world_at (Samples.jan 5 23)))), w')
    ∧ db w' = Some st'
    ∧ find_one (by_id (user_id (Samples.reflection_by "u1"))) (collection "user" st')
      = Some u'
    ∧ u' = accrued Samples.ann (refresh_of_run (Samples.world_at (Samples.jan 5 23)))
             (streak_of Samples.ann) (40 + 5)
    ∧ xp_of u' = VInt (40 + 5)
    ∧ streak_of u' = streak_of Samples.ann
    ∧ u' !! "last_completed_at"
      = Some (VDatetime (refresh_of_run (Samples.world_at (Samples.jan 5 23)))).
Proof.
  apply (same_day_completion (Samples.world_at (Samples.jan 5 23))
           {[ "user" := [Samples.ann] ]} (Samples.reflection_by "u1") Samples.ann 40).
  - reflexivity.
  - unfold moods_in_range. simpl. lia.
  - vm_compute. reflexivity.
  - vm_compute. reflexivity.
  - vm_compute. reflexivity.
Defined.


Lemma accrual_grows_xp_and_keeps_streak_nonnegative_witness :
  ∃ w' st' u' x' s',
    submit_reflection (Samples.reflection_by "u1") (Samples.world_at (Samples.jan 8 9))
    = (Ok (id_supply (Samples.world_at (Samples.jan 8 9))
             (ids_taken (Samples.world_at (Samples.jan 8 9)))), w')
    ∧ db w' = Some st'
    ∧ find_one (by_id (user_id (Samples.reflection_by "u1"))) (collection "user" st')
      = Some u'
    ∧ xp_of u' = VInt x'
    ∧ streak_of u' = VInt s'
    ∧ (x' = 40 + 5 ∨ x' = 40 + 10)
    ∧ 40 < x'
    ∧ (s' = 3 ∨ s' = 3 + 1 ∨ s' = 1)
    ∧ 0 <= s'.
Proof.
  apply (accrual_grows_xp_and_keeps_streak_nonnegative
           (Samples.world_at (Samples.jan 8 9))
           {[ "user" := [Samples.ann] ]} (Samples.reflection_by "u1") Samples.ann 40 3).
  - reflexivity.
  - unfold moods_in_range. simpl. lia.
  - vm_compute. reflexivity.
  - vm_compute. reflexivity.
  - vm_compute. reflexivity.
  - lia.
Defined.

Lemma missing_user_skips_accrual_witness :
  ∃ w',
    submit_reflection (Samples.reflection_by "nobody") (Samples.world_at (Samples.jan 8 9))
    = (Ok (id_supply (Samples.world_at (Samples.jan 8 9))
             (ids_taken (Samples.world_at (Samples.jan 8 9)))), w')
    ∧ db w'
      = Some (<["reflection" :=
                (collection "reflection" {[ "user" := [Samples.ann] ]}
                 ++ [stored_reflection (Samples.world_at (Samples.jan 8 9))
                       (Samples.reflection_by "nobody")])%list]>
                {[ "user" := [Samples.ann] ]})
    ∧ (∀ st', db w' = Some st' →
              collection "user" st' = collection "user" {[ "user" := [Samples.ann] ]})
    ∧ stored_reflection (Samples.world_at (Samples.jan 8 9))
        (Samples.reflection_by "nobody") !! "_id"
      = Some (VStr (id_supply (Samples.world_at (Samples.jan 8 9))
                      (ids_taken (Samples.world_at (Samples.jan 8 9)))))
    ∧ stored_reflection (Samples.world_at (Samples.jan 8 9))
        (Samples.reflection_by "nobody") !! "user_id"
      = Some (VStr (user_id (Samples.reflection_by "nobody"))).
Proof.
  apply (missing_user_skips_accrual (Samples.world_at (Samples.jan 8 9))
           {[ "user" := [Samples.ann] ]} (Samples.reflection_by "nobody")).
  - reflexivity.
  - unfold moods_in_range. simpl. lia.
  - vm_compute. reflexivity.
Defined.

Example accrual_continuation :
  xp_and_streak Samples.ann (to_date (Samples.jan 6 9)) = Ok (10, VInt 4).
Proof. reflexivity. Qed.

Example accrual_reset_on_gap :
  xp_and_streak Samples.ann (to_date (Samples.jan 8 9)) = Ok (10, VInt 1).
Proof. reflexivity. Qed.

Example first_ever_completion :
  xp_and_streak {[ "_id" := VStr "u2"; "xp" := VInt 0; "streak" := VInt 0;
                   "last_completed_at" := VNone ]}
    (to_date (Samples.jan 8 9)) = Ok (10, VInt 1).
Proof. reflexivity. Qed.

(** ** Badges *)

Lemma comprehension_earned (x s : Z) (l : list Badge) :
  comprehension (earned (VInt x) (VInt s)) l = Ok (List.filter (meets_requirement x s) l).
Proof.
  induction l as [| b l IH]; [done |].
  simpl. rewrite IH. unfold earned, py_ge, meets_requirement. simpl.
  by destruct (requirement b <=? x), (requirement b <=? s).
Qed.

Lemma meets_requirement_spec (x s : Z) (b : Badge) :
  meets_requirement x s b = true ↔ requirement b <= x ∨ requirement b <= s.
Proof.
  unfold meets_requirement. rewrite orb_true_iff, !Z.leb_le. done.
Qed.

(** C6: for a stored user whose xp and streak read as the integers [x]
    and [s], the profile's badges are exactly the badge definitions whose
    requirement is at most [x] or at most [s], in the order of the badge
    catalog. *)
Theorem badges_by_threshold
    (w : World) (st : Database) (uid : string) (u : Doc) (x s : Z) :
  db w = Some st →
  find_one (by_id uid) (collection "user" st) = Some u →
  xp_of u = VInt x →
  streak_of u = VInt s →
  ∃ p,
    (get_profile uid w).1 = Ok p
    ∧ badges p = List.filter (meets_requirement x s) BADGES
    ∧ (∀ b, In b (badges p) ↔ In b BADGES ∧ (requirement b <= x ∨ requirement b <= s))
    ∧ sublist (badges p) BADGES.
Proof.
  intros Hdb Hfind Hxp Hs.
  pose proof (found_by_id_is_truthy _ _ _ Hfind) as Htruthy.
  eexists.
  unfold get_profile, mbind, M_bind, mret, M_ret, lift, db_is_none,
    coll_find_one, get_collection, raise.
  rewrite Hdb. rewrite bool_decide_eq_false_2 by done. step_monad.
  rewrite Hdb. step_monad. rewrite Hfind. step_monad.
  rewrite Htruthy, Hxp, Hs, comprehension_earned. step_monad.
  rewrite Hdb. cbv beta iota. cbn [fst badges].
  split; [reflexivity |]. split; [reflexivity |]. split.
  - intros b. rewrite <- meets_requirement_spec. apply filter_In.
  - apply filter_is_sublist.
Qed.

Lemma badges_by_threshold_witness :
  ∃ p,
    (get_profile "u1" (Samples.world_at (Samples.jan 8 9))).1 = Ok p
    ∧ badges p = List.filter (meets_requirement 40 3) BADGES
    ∧ (∀ b, In b (badges p) ↔ In b BADGES ∧ (requirement b <= 40 ∨ requirement b <= 3))
    ∧ sublist (badges p) BADGES.
Proof.
  apply (badges_by_threshold (Samples.world_at (Samples.jan 8 9))
           {[ "user" := [Samples.ann] ]} "u1" Samples.ann 40 3).
  - reflexivity.
  - vm_compute. reflexivity.
  - vm_compute. reflexivity.
  - vm_compute. reflexivity.
Defined.

Example streak_alone_earns_badges :
  List.filter (meets_requirement 0 5) BADGES
  = [ {| badge_id := "first"; badge_name := "First Step"; requirement := 1 |};
      {| badge_id := "streak5"; badge_name := "On a Roll"; requirement := 5 |} ].
Proof. reflexivity. Qed.

(** ** Sorting and limiting *)

Lemma bson_leb_total (a b : value) : bson_leb a b = true ∨ bson_leb b a = true.
Proof.
  destruct a as [| x | x | x | x], b as [| y | y | y | y]; simpl; auto;
    try (rewrite !Z.leb_le; lia).
  - destruct x, y; auto.
  - apply String.leb_total.
Qed.

Section Descending.

Variable key : string.

Lemma insert_descending_In (d y : Doc) (l : list Doc) :
  In y (insert_descending key d l) ↔ y = d ∨ In y l.
Proof.
  induction l as [| x xs IH]; simpl; [intuition congruence |].
  destruct (bson_leb (sort_key key x) (sort_key key d)); simpl;
    [intuition congruence |].
  rewrite IH. intuition congruence.
Qed.

Lemma insert_descending_HdRel (x d : Doc) (l : list Doc) :
  at_least key x d → HdRel (at_least key) x l → HdRel (at_least key) x (insert_descending key d l).
Proof.
  intros Hxd Hhd. destruct l as [| y ys]; simpl; [by constructor |].
  destruct (bson_leb (sort_key key y) (sort_key key d)); constructor; [done |].
  by inversion Hhd.
Qed.

Lemma insert_descending_Sorted (d : Doc) (l : list Doc) :
  Sorted (at_least key) l → Sorted (at_least key) (insert_descending key d l).
Proof.
  induction 1 as [| x xs Hsorted IH Hhd]; simpl.
  - repeat constructor.
  - destruct (bson_leb (sort_key key x) (sort_key key d)) eqn:Hle.
    + constructor; [by constructor |]. by constructor.
    + constructor; [exact IH |].
      apply insert_descending_HdRel; [| exact Hhd].
      unfold at_least. destruct (bson_leb_total (sort_key key d) (sort_key key x));
        [done | congruence].
Qed.

Lemma sort_descending_Sorted (l : list Doc) : Sorted (at_least key) (sort_descending key l).
Proof.
  induction l as [| d l IH]; simpl; [constructor |].
  by apply insert_descending_Sorted.
Qed.

Lemma sort_descending_In (y : Doc) (l : list Doc) :
  In y (sort_descending key l) ↔ In y l.
Proof.
  induction l as [| d l IH]; simpl; [done |].
  rewrite insert_descending_In, IH. intuition congruence.
Qed.

Lemma sort_descending_length (l : list Doc) :
  length (sort_descending key l) = length l.
Proof.
  induction l as [| d l IH]; simpl; [done |].
  rewrite <- IH. generalize (sort_descending key l). intros s.
  induction s as [| x xs IHs]; simpl; [done |].
  destruct (bson_leb (sort_key key x) (sort_key key d)); simpl; [done |].
  by rewrite IHs.
Qed.

Lemma firstn_Sorted (n : nat) (l : list Doc) :
  Sorted (at_least key) l → Sorted (at_least key) (firstn n l).
Proof.
  intros Hsorted. revert n.
  induction Hsorted as [| x xs Hsorted IH Hhd]; intros [| n]; simpl;
    try constructor; [apply IH |].
  destruct xs as [| y ys], n as [| n]; simpl; constructor. by inversion Hhd.
Qed.

End Descending.

Lemma matches_public_only (d : Doc) :
  matches public_only d = true ↔ d !! "is_public" = Some (VBool true).
Proof.
  unfold matches, public_only, field_matches, value_matches. simpl.
  rewrite andb_true_r. destruct (d !! "is_public") as [v |]; simpl.
  - rewrite bool_decide_eq_true. naive_solver.
  - split; discriminate.
Qed.

Lemma gallery_view_created_at (d : Doc) :
  sort_key "created_at" (gallery_view d) = sort_key "created_at" d.
Proof. reflexivity. Qed.

Lemma gallery_view_Sorted (l : list Doc) :
  Sorted (at_least "created_at") l → Sorted newer_or_equal (map gallery_view l).
Proof.
  induction 1 as [| x xs Hsorted IH Hhd]; simpl; constructor; [done |].
  destruct Hhd; simpl; constructor.
  unfold newer_or_equal, at_least. by rewrite !gallery_view_created_at.
Qed.

(** With storage configured the handler returns the views of the
    documents the cursor yields, and changes nothing. *)
Lemma gallery_run (limit : Z) (w : World) (st : Database) :
  db w = Some st →
  gallery limit w
  = (Ok (map gallery_view (gallery_docs limit (collection "reflection" st))), w).
Proof.
  intros Hdb. unfold gallery, db_is_none, get_collection. step_monad.
  rewrite Hdb. rewrite bool_decide_eq_false_2 by done. step_monad.
  by rewrite Hdb.
Qed.

(** For a limit of at least 1 the gallery is capped, public and newest
    first. *)
Lemma gallery_positive_limit (limit : Z) (w : World) (st : Database) :
  db w = Some st →
  1 <= limit →
  ∃ out,
    gallery limit w = (Ok out, w)
    ∧ Z.of_nat (length out) <= Z.min limit 50
    ∧ (∀ v, In v out →
            ∃ d, v = gallery_view d
                 ∧ In d (collection "reflection" st)
                 ∧ d !! "is_public" = Some (VBool true))
    ∧ Sorted newer_or_equal out.
Proof.
  intros Hdb Hpos. eexists. split; [by apply gallery_run |].
  unfold gallery_docs, Mongo.limit.
  destruct (Z.eqb_spec (Z.min limit 50) 0) as [Hzero | _]; [lia |].
  split; [| split].
  - rewrite length_map, length_firstn. lia.
  - intros v (d & <- & Hd)%in_map_iff. exists d. split; [done |].
    apply In_firstn, sort_descending_In, filter_In in Hd as [Hin Hpub].
    split; [done |]. by apply matches_public_only.
  - apply gallery_view_Sorted, firstn_Sorted, sort_descending_Sorted.
Qed.

Example gallery_limit_1000 (w : World) (st : Database) :
  db w = Some st →
  ∃ out, gallery 1000 w = (Ok out, w) ∧ (length out ≤ 50)%nat.
Proof.
  intros Hdb.
  destruct (gallery_positive_limit 1000 w st Hdb) as (out & Hrun & Hlen & _); [lia |].
  exists out. split; [done | lia].
Qed.

Example gallery_limit_3 (w : World) (st : Database) :
  db w = Some st →
  ∃ out, gallery 3 w = (Ok out, w) ∧ (length out ≤ 3)%nat.
Proof.
  intros Hdb.
  destruct (gallery_positive_limit 3 w st Hdb) as (out & Hrun & Hlen & _); [lia |].
  exists out. split; [done | lia].
Qed.

(** C7 at a limit of 0: the cursor is then not limited at all, and a store
    with 51 public reflections yields all 51 of them, more than
    [min(0, 50)] and more than 50. *)
Theorem gallery_limit_zero_is_unlimited :
  ∃ out,
    gallery 0 Samples.crowded_world = (Ok out, Samples.crowded_world)
    ∧ length out = 51%nat
    ∧ Z.min 0 50 < Z.of_nat (length out)
    ∧ 50 < Z.of_nat (length out).
Proof.
  eexists. split; [by apply gallery_run |].
  assert (length (map gallery_view
                    (gallery_docs 0
                       (collection "reflection"
                          {[ "user" := [Samples.ann];
                             "reflection" := map Samples.public_reflection (seq 0 51) ]})))
          = 51%nat) as ->.
  { rewrite length_map. unfold gallery_docs. simpl Z.min. unfold Mongo.limit. simpl Z.eqb.
    cbv iota. rewrite sort_descending_length. vm_compute. reflexivity. }
  repeat split; lia.
Qed.

(** ** Setting the mode *)

Lemma update_one_ext (q q' : query) (u : update) (coll : list Doc) :
  (∀ d, matches q d = matches q' d) → update_one q u coll = update_one q' u coll.
Proof.
  intros Hext. induction coll as [| d rest IH]; [done |].
  simpl. by rewrite Hext, IH.
Qed.

Lemma matches_op_eq (field : string) (v : value) (d : Doc) :
  matches [(field, OpEq v)] d = matches [(field, Equals v)] d.
Proof. reflexivity. Qed.

Lemma mode_set_keeps_id (mode : string) (u : Doc) :
  <["mode" := VStr mode]> u !! "_id" = u !! "_id".
Proof. by rewrite lookup_insert_ne. Qed.

(** What the plain update by identifier does to a stored user: the first
    document with that [_id] gets its [mode] field set; the other
    documents and the other fields stay as they are. *)
Lemma set_mode_by_id_found
    (w : World) (st : Database) (uid : string) (payload : ModeRequest) (u : Doc) :
  db w = Some st →
  find_one (by_id uid) (collection "user" st) = Some u →
  ∃ before after,
    collection "user" st = (before ++ u :: after)%list
    ∧ find_one (by_id uid) before = None
    ∧ (set_mode_by_id uid payload w).1 = Ok {| ok := true; response_mode := mode payload |}
    ∧ db (set_mode_by_id uid payload w).2
      = Some (<["user" := (before ++ <["mode" := VStr (mode payload)]> u :: after)%list]> st).
Proof.
  intros Hdb Hfind.
  destruct (update_one_first_match (by_id uid)
              (Update [("mode", VStr (mode payload))] []) _ u
              (<["mode" := VStr (mode payload)]> u) Hfind)
    as (before & after & Hsplit & Hnone & Hone & _); [done | |].
  { apply matches_by_id. rewrite mode_set_keeps_id.
    apply matches_by_id. by apply find_one_Some in Hfind as [_ ?]. }
  exists before, after. split; [done |]. split; [done |].
  unfold set_mode_by_id, db_is_none, coll_update_one, get_collection,
    put_collection, set_collection.
  step_monad. rewrite Hdb. rewrite bool_decide_eq_false_2 by done. step_monad.
  rewrite Hdb. rewrite Hone. cbn. by rewrite Hdb.
Qed.

(** With a codec options value in hand, the filter of line 155 would
    compare [_id] with the user identifier whenever the document built
    has no [_id] key. *)
Lemma set_mode_filter_of_fresh_document (options : CodecOptions) (uid : string) :
  document_class options () !! "_id" = None →
  set_mode_filter options uid = [("_id", OpEq (VStr uid))].
Proof.
  intros Hfresh. unfold set_mode_filter, dict_get. by rewrite Hfresh.
Qed.

(** What the handler does on every world: the guard of line 153 without
    storage, the failing call of line 155 with it; nothing is written. *)
Lemma set_mode_run (uid : string) (payload : ModeRequest) (w : World) :
  set_mode uid payload w
  = (Raise (if bool_decide (db w = None) then not_configured else TypeError), w).
Proof.
  unfold set_mode, db_is_none, get_default_codec_options. step_monad.
  by destruct (bool_decide (db w = None)).
Qed.

(** C10: on configured storage the filter expression of line 155 is never
    evaluated to the user identifier: the call it starts with raises
    [TypeError], so [set_mode] fails before [update_one] and leaves the
    store as it was, whereas the plain update by identifier answers [ok]
    and sets the [mode] field of that user's document. *)
Theorem set_mode_raises_before_updating :
  set_mode "u1" {| mode := "casual" |} (Samples.world_at (Samples.jan 8 9))
  = (Raise TypeError, Samples.world_at (Samples.jan 8 9))
  ∧ (set_mode_by_id "u1" {| mode := "casual" |} (Samples.world_at (Samples.jan 8 9))).1
    = Ok {| ok := true; response_mode := "casual" |}
  ∧ collection "user"
    <$> db (set_mode_by_id "u1" {| mode := "casual" |}
              (Samples.world_at (Samples.jan 8 9))).2
    = Some [<["mode" := VStr "casual"]> Samples.ann]
  ∧ collection "user"
    <$> db (set_mode "u1" {| mode := "casual" |} (Samples.world_at (Samples.jan 8 9))).2
    = Some [Samples.ann].
Proof.
  split; [apply set_mode_run |].
  destruct (set_mode_by_id_found (Samples.world_at (Samples.jan 8 9))
              {[ "user" := [Samples.ann] ]} "u1" {| mode := "casual" |} Samples.ann)
    as (before & after & Hsplit & Hnone & Hres & Hdb); [reflexivity | by vm_compute |].
  split; [exact Hres |]. split.
  - rewrite Hdb. simpl. rewrite collection_insert_eq.
    destruct before as [| x before]; [| by destruct before].
    by injection Hsplit as <-.
  - rewrite set_mode_run. reflexivity.
Qed.

(* ===================================================================== *)
(** * Part III: further properties of the handlers                        *)
(* ===================================================================== *)

(** ** Challenges: what is returned, and how the rotation moves *)

Lemma py_getitem_Ok {A} (l : list A) (i : Z) (x : A) : py_getitem l i = Ok x → In x l.
Proof.
  unfold py_getitem.
  destruct ((0 <=? (if i <? 0 then i + Z.of_nat (length l) else i))
            && ((if i <? 0 then i + Z.of_nat (length l) else i) <? Z.of_nat (length l)));
    [| discriminate].
  destruct (l !! Z.to_nat (if i <? 0 then i + Z.of_nat (length l) else i)) as [y |] eqn:Hy;
    [| discriminate].
  intros [= <-]. apply list_elem_of_In. by eapply list_elem_of_lookup_2.
Qed.

Lemma filter_none {A} (p : A → bool) (l : list A) :
  (∀ x, p x = false) → List.filter p l = [].
Proof.
  intros Hp. induction l as [| x l IH]; [done |]. simpl. by rewrite Hp.
Qed.

Lemma pick_for_day_db (candidates : list Challenge) (w : World) :
  db (pick_for_day candidates w).2 = db w.
Proof.
  destruct candidates as [| c rest]; [done |].
  unfold pick_for_day, utcnow. step_monad.
  by destruct (py_getitem _ _).
Qed.

Lemma pick_for_day_Ok (candidates : list Challenge) (w : World) (c : Challenge) :
  (pick_for_day candidates w).1 = Ok c → In c candidates.
Proof.
  destruct candidates as [| c0 rest]; [discriminate |].
  unfold pick_for_day, utcnow. step_monad.
  destruct (py_getitem _ _) as [x |] eqn:Hget; [| discriminate].
  intros [= <-]. by eapply py_getitem_Ok.
Qed.

(** X1: whatever the filters, the handler never writes to the store, and
    a challenge it returns is an entry of the catalog that passes every
    constraint the handler applies. *)
Theorem next_challenge_is_sound
    (catalog : list Challenge) (filters : ChallengeFilter) (w : World) :
  db (next_challenge catalog filters w).2 = db w
  ∧ ∀ c, (next_challenge catalog filters w).1 = Ok c →
         In c catalog ∧ satisfies_applied filters c = true.
Proof.
  unfold next_challenge. split; [apply pick_for_day_db |].
  intros c Hc%pick_for_day_Ok.
  rewrite filter_candidates_as_filter in Hc. by apply filter_In in Hc.
Qed.

Lemma day_index_next_day (w w' : World) (n : nat) :
  valid_date (to_date (next_instant w)) →
  to_date (next_instant w') = tomorrow (to_date (next_instant w)) →
  day_index w' n = (day_index w n + 1) mod Z.of_nat n.
Proof.
  unfold day_index, next_instant. intros Hvalid ->.
  rewrite toordinal_tomorrow by done.
  destruct n as [| n]; [simpl; by rewrite !Z.mod_0_r |].
  by rewrite Z.add_mod_idemp_l by lia.
Qed.

(** X2: from one calendar day to the next the rotation moves to the next
    candidate in filtered order, wrapping around at the end; with more
    than one candidate the challenge therefore sits at a different
    position than the day before. *)
Theorem rotation_moves_to_the_next_candidate
    (catalog : list Challenge) (filters : ChallengeFilter) (w w' : World) :
  filter_candidates filters catalog ≠ [] →
  valid_date (to_date (next_instant w)) →
  to_date (next_instant w') = tomorrow (to_date (next_instant w)) →
  let n := length (filter_candidates filters catalog) in
  ∃ c',
    filter_candidates filters catalog
      !! Z.to_nat ((day_index w n + 1) mod Z.of_nat n) = Some c'
    ∧ (next_challenge catalog filters w').1 = Ok c'
    ∧ ((1 < n)%nat → day_index w' n ≠ day_index w n).
Proof.
  intros Hne Hvalid Hnext n.
  destruct (pick_for_day_nonempty _ w' Hne) as (c' & Hc' & Hrun').
  fold n in Hc'. rewrite (day_index_next_day w w' n Hvalid Hnext) in Hc'.
  exists c'. split; [done |]. split; [done |].
  intros Hmany. rewrite (day_index_next_day w w' n Hvalid Hnext).
  assert (0 <= day_index w n < Z.of_nat n) as Hrange.
  { apply Z.mod_pos_bound. lia. }
  destruct (decide (day_index w n + 1 = Z.of_nat n)) as [Hwrap | Hstay].
  - rewrite Hwrap, Z_mod_same_full. lia.
  - rewrite Z.mod_small by lia. lia.
Qed.

Lemma rotation_moves_to_the_next_candidate_witness :
  let n := length (filter_candidates Samples.no_filter SEED_CHALLENGES) in
  ∃ c',
    filter_candidates Samples.no_filter SEED_CHALLENGES
      !! Z.to_nat ((day_index (Samples.world_at (Samples.jan 31 23)) n + 1) mod Z.of_nat n)
    = Some c'
    ∧ (next_challenge SEED_CHALLENGES Samples.no_filter
         (Samples.world_at {| to_date := {| year := 2024; month := 2; day := 1 |};
                              hour := 0; minute := 5; second := 0; microsecond := 0 |})).1
      = Ok c'
    ∧ ((1 < n)%nat →
       day_index (Samples.world_at {| to_date := {| year := 2024; month := 2; day := 1 |};
                                      hour := 0; minute := 5; second := 0;
                                      microsecond := 0 |}) n
       ≠ day_index (Samples.world_at (Samples.jan 31 23)) n).
Proof.
  apply (rotation_moves_to_the_next_candidate SEED_CHALLENGES Samples.no_filter
           (Samples.world_at (Samples.jan 31 23))
           (Samples.world_at {| to_date := {| year := 2024; month := 2; day := 1 |};
                                hour := 0; minute := 5; second := 0; microsecond := 0 |})).
  - vm_compute. discriminate.
  - unfold valid_date. vm_compute. repeat split; discriminate.
  - vm_compute. reflexivity.
Defined.

Lemma valid_date_tomorrow (d : date) : valid_date d → valid_date (tomorrow d).
Proof.
  destruct d as [y m dd]. unfold valid_date, tomorrow. simpl. intros [Hm Hd].
  destruct (Z.ltb_spec dd (days_in_month y m)) as [Hlt | Hge]; simpl; [lia |].
  destruct (Z.ltb_spec m 12) as [Hm12 | Hm12]; simpl.
  - split; [lia |].
    assert (m = 1 ∨ m = 2 ∨ m = 3 ∨ m = 4 ∨ m = 5 ∨ m = 6 ∨ m = 7 ∨ m = 8 ∨ m = 9
            ∨ m = 10 ∨ m = 11) as Hcases by lia.
    repeat (destruct Hcases as [-> | Hcases]); try subst m;
      unfold days_in_month; simpl; try destruct (is_leap _); simpl; lia.
  - unfold days_in_month. simpl. lia.
Qed.

Lemma days_later_valid (k : nat) (d : date) : valid_date d → valid_date (days_later k d).
Proof.
  intros Hvalid. induction k as [| k IH]; [done |]. simpl. by apply valid_date_tomorrow.
Qed.

Lemma toordinal_days_later (k : nat) (d : date) :
  valid_date d → toordinal (days_later k d) = toordinal d + Z.of_nat k.
Proof.
  intros Hvalid. induction k as [| k IH]; simpl; [lia |].
  rewrite toordinal_tomorrow by (by apply days_later_valid). lia.
Qed.

(** X3: every candidate gets its day: for a candidate at any position of
    the filtered order there is a day less than [n] days ahead, [n] being
    the number of candidates, on which the handler returns it. *)
Theorem every_candidate_gets_its_day
    (catalog : list Challenge) (filters : ChallengeFilter) (w : World)
    (j : nat) (c : Challenge) :
  valid_date (to_date (next_instant w)) →
  filter_candidates filters catalog !! j = Some c →
  ∃ k, (k < length (filter_candidates filters catalog))%nat
       ∧ ∀ w', to_date (next_instant w') = days_later k (to_date (next_instant w)) →
               (next_challenge catalog filters w').1 = Ok c.
Proof.
  intros Hvalid Hj.
  set (candidates := filter_candidates filters catalog) in *.
  pose proof (lookup_lt_Some _ _ _ Hj) as Hlt.
  set (n := Z.of_nat (length candidates)).
  set (ord := toordinal (to_date (next_instant w))).
  assert (0 <= (Z.of_nat j - ord) mod n < n) as Hk by (apply Z.mod_pos_bound; lia).
  exists (Z.to_nat ((Z.of_nat j - ord) mod n)). split; [lia |].
  intros w' Hdate.
  assert (candidates ≠ []) as Hne by (intros Hnil; rewrite Hnil in Hlt; simpl in Hlt; lia).
  destruct (pick_for_day_nonempty candidates w' Hne) as (c' & Hc' & Hrun').
  unfold next_challenge. fold candidates. rewrite Hrun'. f_equal.
  assert (day_index w' (length candidates) = Z.of_nat j) as Hidx.
  { unfold day_index. fold (next_instant w'). rewrite Hdate.
    rewrite toordinal_days_later by done. fold ord. fold n.
    rewrite Z2Nat.id by lia. rewrite Z.add_mod_idemp_r by lia.
    replace (ord + (Z.of_nat j - ord)) with (Z.of_nat j) by lia.
    apply Z.mod_small. lia. }
  rewrite Hidx, Nat2Z.id in Hc'. congruence.
Qed.

Lemma every_candidate_gets_its_day_witness :
  ∃ k, (k < length (filter_candidates Samples.no_filter SEED_CHALLENGES))%nat
       ∧ ∀ w', to_date (next_instant w')
               = days_later k (to_date (next_instant (Samples.world_at (Samples.jan 5 23)))) →
               (next_challenge SEED_CHALLENGES Samples.no_filter w').1
               = Ok {| _id := "c4";
                       title := "Send a kind message to a friend you haven't talked to in a while";
                       description := "Low-pressure, high-warmth.";
                       mood := "uplifting"; environment := "home"; confidence := 1 |}.
Proof.
  apply (every_candidate_gets_its_day SEED_CHALLENGES Samples.no_filter
           (Samples.world_at (Samples.jan 5 23)) 3).
  - unfold valid_date. vm_compute. repeat split; discriminate.
  - reflexivity.
Defined.

(** X4: a filter whose minimum confidence exceeds its maximum matches
    nothing, so the handler answers with the 404 error, whatever the
    catalog and the other constraints. *)
Theorem reversed_confidence_bounds_match_nothing
    (catalog : list Challenge) (filters : ChallengeFilter) (w : World) (lo hi : Z) :
  confidence_min filters = Some lo →
  confidence_max filters = Some hi →
  hi < lo →
  next_challenge catalog filters w
  = (Raise (HTTPException 404 "No challenges match those filters yet"), w).
Proof.
  intros Hlo Hhi Hrev. unfold next_challenge.
  rewrite filter_candidates_as_filter, filter_none; [apply pick_for_day_empty |].
  intros c. unfold satisfies_applied. rewrite Hlo, Hhi.
  destruct (Z.leb_spec lo (confidence c)), (Z.leb_spec (confidence c) hi);
    rewrite ?andb_false_r; try done. lia.
Qed.

Lemma reversed_confidence_bounds_match_nothing_witness :
  next_challenge SEED_CHALLENGES MoreSamples.reversed_bounds MoreSamples.busy_world
  = (Raise (HTTPException 404 "No challenges match those filters yet"),
     MoreSamples.busy_world).
Proof.
  apply (reversed_confidence_bounds_match_nothing SEED_CHALLENGES
           MoreSamples.reversed_bounds MoreSamples.busy_world 4 2).
  - reflexivity.
  - reflexivity.
  - lia.
Defined.

(** ** Reflections: what a run stores, keeps and repeats *)

(** Once the schema has accepted the request and storage is configured,
    the reflection is in the store however the rest of the run ends,
    and the user collection is the only other thing a run can touch. *)
Lemma submit_reflection_reflections
    (w : World) (st : Database) (payload : ReflectionRequest) :
  db w = Some st →
  moods_in_range payload →
  ∃ st',
    db (submit_reflection payload w).2 = Some st'
    ∧ collection "reflection" st'
      = (collection "reflection" st ++ [stored_reflection w payload])%list
    ∧ ∀ name, name ≠ "user" → name ≠ "reflection" →
              collection name st' = collection name st.
Proof.
  intros Hdb Hvalid.
  destruct w as [d ck reads ids taken]. simpl in Hdb. subst d.
  unfold stored_reflection. simpl.
  unfold submit_reflection, mbind, M_bind, mret, M_ret, lift, create_document,
    db_is_none, db_truthy, coll_find_one, coll_update_one, get_collection,
    put_collection, set_collection, utcnow, raise.
  rewrite (ReflectionSchema_accepts _ Hvalid). simpl.
  rewrite collection_insert_ne by done.
  destruct (find_one (by_id (user_id payload)) (collection "user" st)) as [u |];
    [destruct (dict_truthy u);
     [destruct (xp_and_streak u (to_date (ck (S reads)))) as [[gain streak] | e];
      [unfold mbind, M_bind; simpl; rewrite collection_insert_ne by done;
       destruct (update_one _ _ _) |] |] |];
    simpl; eexists; (split; [reflexivity |]);
    rewrite ?(collection_insert_ne "reflection" "user") by done;
    rewrite collection_insert_eq; (split; [reflexivity |]);
    intros name Hu Hr; rewrite ?(collection_insert_ne name "user") by done;
    by rewrite collection_insert_ne.
Qed.

(** X5: a request with a mood outside 1..5 is refused with a validation
    error before anything happens: no reflection is stored, no XP is
    granted, no clock reading or identifier is used up. *)
Theorem invalid_moods_change_nothing (w : World) (payload : ReflectionRequest) :
  ¬ moods_in_range payload →
  submit_reflection payload w = (Raise ValidationError, w).
Proof.
  intros Hbad. unfold submit_reflection. step_monad.
  unfold ReflectionSchema.
  destruct ((1 <=? mood_before payload) && (mood_before payload <=? 5)
            && (1 <=? mood_after payload) && (mood_after payload <=? 5)) eqn:Hok;
    [| reflexivity].
  exfalso. apply Hbad. unfold moods_in_range.
  rewrite !andb_true_iff, !Z.leb_le in Hok. lia.
Qed.

Lemma invalid_moods_change_nothing_witness :
  submit_reflection MoreSamples.out_of_range_reflection MoreSamples.busy_world
  = (Raise ValidationError, MoreSamples.busy_world).
Proof.
  apply (invalid_moods_change_nothing MoreSamples.busy_world
           MoreSamples.out_of_range_reflection).
  unfold moods_in_range. simpl. lia.
Defined.

(** X6: with storage configured and moods in range the reflection is
    appended to the reflection collection whether the run then succeeds
    or fails (a failed accrual does not take the reflection back), and
    no collection other than [user] and [reflection] is touched. *)
Theorem accepted_reflection_is_always_stored
    (w : World) (st : Database) (payload : ReflectionRequest) :
  db w = Some st →
  moods_in_range payload →
  ∃ st',
    db (submit_reflection payload w).2 = Some st'
    ∧ collection "reflection" st'
      = (collection "reflection" st ++ [stored_reflection w payload])%list
    ∧ stored_reflection w payload !! "is_public" = Some (VBool (is_public payload))
    ∧ stored_reflection w payload !! "created_at" = Some (VDatetime (next_instant w))
    ∧ ∀ name, name ≠ "user" → name ≠ "reflection" →
              collection name st' = collection name st.
Proof.
  intros Hdb Hvalid.
  destruct (submit_reflection_reflections w st payload Hdb Hvalid)
    as (st' & Hdb' & Hrefl & Hother).
  exists st'. repeat split; try done.
Qed.

Lemma accepted_reflection_is_always_stored_witness :
  ∃ st',
    db (submit_reflection (Samples.reflection_by "u2") MoreSamples.busy_world).2 = Some st'
    ∧ collection "reflection" st'
      = (collection "reflection"
           {[ "user" := [Samples.ann; MoreSamples.bob];
              "reflection" := (map Samples.public_reflection (seq 0 3)
                               ++ [MoreSamples.private_note])%list ]}
         ++ [stored_reflection MoreSamples.busy_world (Samples.reflection_by "u2")])%list
    ∧ stored_reflection MoreSamples.busy_world (Samples.reflection_by "u2") !! "is_public"
      = Some (VBool (is_public (Samples.reflection_by "u2")))
    ∧ stored_reflection MoreSamples.busy_world (Samples.reflection_by "u2") !! "created_at"
      = Some (VDatetime (next_instant MoreSamples.busy_world))
    ∧ ∀ name, name ≠ "user" → name ≠ "reflection" →
              collection name st'
              = collection name
                  {[ "user" := [Samples.ann; MoreSamples.bob];
                     "reflection" := (map Samples.public_reflection (seq 0 3)
                                      ++ [MoreSamples.private_note])%list ]}.
Proof.
  apply (accepted_reflection_is_always_stored MoreSamples.busy_world
           {[ "user" := [Samples.ann; MoreSamples.bob];
              "reflection" := (map Samples.public_reflection (seq 0 3)
                               ++ [MoreSamples.private_note])%list ]}
           (Samples.reflection_by "u2")).
  - reflexivity.
  - unfold moods_in_range. simpl. lia.
Defined.

(** The whole world a run leaves behind when the user is found. *)
Lemma submit_reflection_found_world
    (w : World) (st : Database) (payload : ReflectionRequest) (u : Doc)
    (gain x : Z) (streak : value) :
  db w = Some st →
  moods_in_range payload →
  find_one (by_id (user_id payload)) (collection "user" st) = Some u →
  xp_of u = VInt x →
  xp_and_streak u (today_of_run w) = Ok (gain, streak) →
  ∃ before after,
    collection "user" st = (before ++ u :: after)%list
    ∧ find_one (by_id (user_id payload)) before = None
    ∧ submit_reflection payload w
      = (Ok (id_supply w (ids_taken w)),
         after_reflection w
           (<["user" := (before ++ accrued u (refresh_of_run w) streak (x + gain)
                         :: after)%list]>
              (with_reflection st (stored_reflection w payload))))
    ∧ find_one (by_id (user_id payload))
        (before ++ accrued u (refresh_of_run w) streak (x + gain) :: after)%list
      = Some (accrued u (refresh_of_run w) streak (x + gain)).
Proof.
  intros Hdb Hvalid Hfind Hxp Hstep.
  destruct w as [d ck reads ids taken]. simpl in Hdb. subst d.
  unfold today_of_run, refresh_of_run, stored_reflection, after_reflection,
    with_reflection in *. simpl in *.
  pose proof (found_by_id_is_truthy _ _ _ Hfind) as Htruthy.
  pose proof (apply_accrual_update u (ck (S (S reads))) streak gain x Hxp) as Hupd.
  destruct (update_one_first_match _ _ _ _ _ Hfind Hupd)
    as (before & after & Hsplit & Hnone & Hone & Hagain).
  { apply matches_by_id. rewrite accrued_keeps_id.
    apply matches_by_id. by apply find_one_Some in Hfind as [_ ?]. }
  exists before, after. split; [done |]. split; [done |]. split; [| done].
  unfold submit_reflection, mbind, M_bind, mret, M_ret, lift, create_document,
    db_is_none, db_truthy, coll_find_one, coll_update_one, get_collection,
    put_collection, set_collection, utcnow, raise.
  rewrite (ReflectionSchema_accepts _ Hvalid). simpl.
  rewrite collection_insert_ne by done.
  rewrite Hfind, Htruthy, Hstep. simpl.
  unfold mbind, M_bind. simpl.
  rewrite collection_insert_ne by done. by rewrite Hone.
Qed.

Lemma xp_and_streak_typed (u : Doc) (today : date) (s : Z) :
  streak_of u = VInt s →
  ∃ gain s',
    xp_and_streak u today = Ok (gain, VInt s')
    ∧ ((gain = 5 ∧ s' = s) ∨ (gain = 10 ∧ (s' = s + 1 ∨ s' = 1))).
Proof.
  intros Hs.
  destruct (decide (last_date_of u = Some today)) as [Hsame | Hother].
  - exists 5, s. rewrite (xp_and_streak_same_day _ _ Hsame), Hs. auto.
  - exists 10, (if consecutive (last_date_of u) today then s + 1 else 1).
    rewrite (xp_and_streak_other_day _ _ s Hother Hs).
    split; [done |]. right. split; [done |].
    destruct (consecutive _ _); auto.
Qed.

Lemma accrued_other_fields (u : Doc) (now : datetime) (streak : value) (xp : Z)
    (k : string) :
  k ≠ "xp" → k ≠ "streak" → k ≠ "last_completed_at" →
  accrued u now streak xp !! k = u !! k.
Proof. intros Hx Hs Hl. unfold accrued. by rewrite !lookup_insert_ne. Qed.

(** X7: an accrual rewrites one document only, the first one with the
    submitter's identifier, and in it only [xp], [streak] and
    [last_completed_at]; every other user document and every other field
    (name, email, mode, identifier) is as before. *)
Theorem accrual_touches_one_document_three_fields
    (w : World) (st : Database) (payload : ReflectionRequest) (u : Doc) (x s : Z) :
  db w = Some st →
  moods_in_range payload →
  find_one (by_id (user_id payload)) (collection "user" st) = Some u →
  xp_of u = VInt x →
  streak_of u = VInt s →
  ∃ before after u' st',
    collection "user" st = (before ++ u :: after)%list
    ∧ db (submit_reflection payload w).2 = Some st'
    ∧ collection "user" st' = (before ++ u' :: after)%list
    ∧ ∀ k, k ≠ "xp" → k ≠ "streak" → k ≠ "last_completed_at" → u' !! k = u !! k.
Proof.
  intros Hdb Hvalid Hfind Hxp Hs.
  destruct (xp_and_streak_typed u (today_of_run w) s Hs) as (gain & s' & Hstep & _).
  destruct (submit_reflection_found_world w st payload u gain x (VInt s'))
    as (before & after & Hsplit & _ & Hrun & _); try done.
  exists before, after, (accrued u (refresh_of_run w) (VInt s') (x + gain)).
  eexists. rewrite Hrun. simpl. split; [done |]. split; [reflexivity |].
  rewrite collection_insert_eq. split; [reflexivity |].
  intros k. apply accrued_other_fields.
Qed.

Lemma accrual_touches_one_document_three_fields_witness :
  ∃ before after u' st',
    collection "user" {[ "user" := [Samples.ann; MoreSamples.bob];
                         "reflection" := (map Samples.public_reflection (seq 0 3)
                                          ++ [MoreSamples.private_note])%list ]}
    = (before ++ MoreSamples.bob :: after)%list
    ∧ db (submit_reflection (Samples.reflection_by "u2") MoreSamples.busy_world).2
      = Some st'
    ∧ collection "user" st' = (before ++ u' :: after)%list
    ∧ ∀ k, k ≠ "xp" → k ≠ "streak" → k ≠ "last_completed_at" →
           u' !! k = MoreSamples.bob !! k.
Proof.
  apply (accrual_touches_one_document_three_fields MoreSamples.busy_world
           {[ "user" := [Samples.ann; MoreSamples.bob];
              "reflection" := (map Samples.public_reflection (seq 0 3)
                               ++ [MoreSamples.private_note])%list ]}
           (Samples.reflection_by "u2") MoreSamples.bob 0 0).
  - reflexivity.
  - unfold moods_in_range. simpl. lia.
  - vm_compute. reflexivity.
  - vm_compute. reflexivity.
  - vm_compute. reflexivity.
Defined.

(** X8: between a user's streak and xp the handler keeps the relation
    [0 <= streak] and [10 * streak <= xp]: if it holds before a run that
    finds the user, it holds for the values the run stores. *)
Theorem accrual_keeps_streak_within_xp
    (w : World) (st : Database) (payload : ReflectionRequest) (u : Doc) (x s : Z) :
  db w = Some st →
  moods_in_range payload →
  find_one (by_id (user_id payload)) (collection "user" st) = Some u →
  xp_of u = VInt x →
  streak_of u = VInt s →
  streak_within_xp x s →
  ∃ st' u' x' s',
    db (submit_reflection payload w).2 = Some st'
    ∧ find_one (by_id (user_id payload)) (collection "user" st') = Some u'
    ∧ xp_of u' = VInt x'
    ∧ streak_of u' = VInt s'
    ∧ streak_within_xp x' s'.
Proof.
  intros Hdb Hvalid Hfind Hxp Hs [Hnonneg Hwithin].
  destruct (xp_and_streak_typed u (today_of_run w) s Hs)
    as (gain & s' & Hstep & Hcases).
  destruct (submit_reflection_found_world w st payload u gain x (VInt s'))
    as (before & after & _ & _ & Hrun & Hagain); try done.
  eexists _, (accrued u (refresh_of_run w) (VInt s') (x + gain)), (x + gain), s'.
  rewrite Hrun. simpl. split; [reflexivity |].
  rewrite collection_insert_eq. split; [exact Hagain |].
  rewrite xp_of_accrued, streak_of_accrued. split; [done |]. split; [done |].
  unfold streak_within_xp. lia.
Qed.

Lemma accrual_keeps_streak_within_xp_witness :
  ∃ st' u' x' s',
    db (submit_reflection (Samples.reflection_by "u1")
          (Samples.world_at (Samples.jan 6 9))).2 = Some st'
    ∧ find_one (by_id (user_id (Samples.reflection_by "u1"))) (collection "user" st')
      = Some u'
    ∧ xp_of u' = VInt x'
    ∧ streak_of u' = VInt s'
    ∧ streak_within_xp x' s'.
Proof.
  apply (accrual_keeps_streak_within_xp (Samples.world_at (Samples.jan 6 9))
           {[ "user" := [Samples.ann] ]} (Samples.reflection_by "u1") Samples.ann 40 3).
  - reflexivity.
  - unfold moods_in_range. simpl. lia.
  - vm_compute. reflexivity.
  - vm_compute. reflexivity.
  - vm_compute. reflexivity.
  - unfold streak_within_xp. lia.
Defined.

Lemma last_date_of_accrued (u : Doc) (now : datetime) (streak : value) (xp : Z) :
  last_date_of (accrued u now streak xp) = Some (to_date now).
Proof.
  unfold last_date_of, dict_get. by rewrite last_completed_at_accrued.
Qed.

(** X9: two submissions in a row by the same user: when the second run
    reads a date equal to the date of the instant the first run wrote
    back, the second run adds exactly 5 to the xp the first run left and
    stores the streak the first run left. *)
Theorem second_completion_of_the_day
    (w : World) (st : Database) (payload again : ReflectionRequest) (u : Doc) (x s : Z) :
  db w = Some st →
  moods_in_range payload →
  moods_in_range again →
  user_id again = user_id payload →
  find_one (by_id (user_id payload)) (collection "user" st) = Some u →
  xp_of u = VInt x →
  streak_of u = VInt s →
  to_date (clock w (S (S (S (S (clock_reads w)))))) = to_date (refresh_of_run w) →
  ∃ w1 st1 u1 x1 s1 w2 st2 u2,
    submit_reflection payload w = (Ok (id_supply w (ids_taken w)), w1)
    ∧ db w1 = Some st1
    ∧ find_one (by_id (user_id payload)) (collection "user" st1) = Some u1
    ∧ xp_of u1 = VInt x1
    ∧ streak_of u1 = VInt s1
    ∧ submit_reflection again w1 = (Ok (id_supply w (S (ids_taken w))), w2)
    ∧ db w2 = Some st2
    ∧ find_one (by_id (user_id payload)) (collection "user" st2) = Some u2
    ∧ xp_of u2 = VInt (x1 + 5)
    ∧ streak_of u2 = VInt s1.
Proof.
  intros Hdb Hvalid Hvalid2 Hsame_user Hfind Hxp Hs Hsame_day.
  destruct (xp_and_streak_typed u (today_of_run w) s Hs) as (gain & s1 & Hstep & _).
  destruct (submit_reflection_found_world w st payload u gain x (VInt s1))
    as (before & after & _ & _ & Hrun & Hagain); try done.
  set (u1 := accrued u (refresh_of_run w) (VInt s1) (x + gain)) in *.
  set (st1 := <["user" := (before ++ u1 :: after)%list]>
                (with_reflection st (stored_reflection w payload))) in *.
  set (w1 := after_reflection w st1) in *.
  assert (find_one (by_id (user_id again)) (collection "user" st1) = Some u1) as Hfind1.
  { rewrite Hsame_user. unfold st1. by rewrite collection_insert_eq. }
  destruct (submit_reflection_found_world w1 st1 again u1 5 (x + gain) (VInt s1))
    as (before' & after' & _ & _ & Hrun2 & Hagain2); try done.
  { apply xp_of_accrued. }
  { rewrite <- (streak_of_accrued u (refresh_of_run w) (VInt s1) (x + gain)).
    apply xp_and_streak_same_day. unfold u1. rewrite last_date_of_accrued.
    unfold today_of_run, w1, after_reflection. simpl. by rewrite Hsame_day. }
  exists w1, st1, u1, (x + gain), s1.
  eexists _, _, (accrued u1 (refresh_of_run w1) (VInt s1) (x + gain + 5)).
  split; [exact Hrun |]. split; [reflexivity |].
  split; [by rewrite <- Hsame_user |].
  split; [apply xp_of_accrued |]. split; [apply streak_of_accrued |].
  split; [exact Hrun2 |]. split; [reflexivity |].
  rewrite collection_insert_eq, <- Hsame_user.
  split; [exact Hagain2 |]. split; [apply xp_of_accrued | apply streak_of_accrued].
Qed.

Lemma second_completion_of_the_day_witness :
  ∃ w1 st1 u1 x1 s1 w2 st2 u2,
    submit_reflection (Samples.reflection_by "u1") MoreSamples.busy_world
    = (Ok (id_supply MoreSamples.busy_world (ids_taken MoreSamples.busy_world)), w1)
    ∧ db w1 = Some st1
    ∧ find_one (by_id (user_id (Samples.reflection_by "u1"))) (collection "user" st1)
      = Some u1
    ∧ xp_of u1 = VInt x1
    ∧ streak_of u1 = VInt s1
    ∧ submit_reflection (MoreSamples.private_reflection_by "u1") w1
      = (Ok (id_supply MoreSamples.busy_world (S (ids_taken MoreSamples.busy_world))), w2)
    ∧ db w2 = Some st2
    ∧ find_one (by_id (user_id (Samples.reflection_by "u1"))) (collection "user" st2)
      = Some u2
    ∧ xp_of u2 = VInt (x1 + 5)
    ∧ streak_of u2 = VInt s1.
Proof.
  apply (second_completion_of_the_day MoreSamples.busy_world
           {[ "user" := [Samples.ann; MoreSamples.bob];
              "reflection" := (map Samples.public_reflection (seq 0 3)
                               ++ [MoreSamples.private_note])%list ]}
           (Samples.reflection_by "u1") (MoreSamples.private_reflection_by "u1")
           Samples.ann 40 3).
  - reflexivity.
  - unfold moods_in_range. simpl. lia.
  - unfold moods_in_range. simpl. lia.
  - reflexivity.
  - vm_compute. reflexivity.
  - vm_compute. reflexivity.
  - vm_compute. reflexivity.
  - vm_compute. reflexivity.
Defined.

(** ** The gallery: what it shows and what it hides *)

Lemma limit_In (n : Z) (l : list Doc) (d : Doc) : In d (Mongo.limit n l) → In d l.
Proof. unfold Mongo.limit. destruct (n =? 0); [done | apply In_firstn]. Qed.

Lemma limit_Sorted (key : string) (n : Z) (l : list Doc) :
  Sorted (at_least key) l → Sorted (at_least key) (Mongo.limit n l).
Proof. unfold Mongo.limit. destruct (n =? 0); [done | apply firstn_Sorted]. Qed.

Lemma gallery_view_keys (d : Doc) : dom (gallery_view d) = gallery_keys.
Proof.
  unfold gallery_view, gallery_keys. simpl.
  rewrite !dom_insert_L, dom_empty_L. set_solver.
Qed.

Lemma filter_one {A} (p : A → bool) (x : A) :
  List.filter p [x] = if p x then [x] else [].
Proof. reflexivity. Qed.

Lemma stored_reflection_is_public (w : World) (payload : ReflectionRequest) :
  matches public_only (stored_reflection w payload) = is_public payload.
Proof.
  unfold matches, public_only, field_matches, value_matches, stored_reflection,
    model_dump. simpl.
  rewrite !lookup_insert_ne by done. rewrite lookup_insert_eq.
  rewrite andb_true_r. destruct (is_public payload); by vm_compute.
Qed.

(** X10: whatever limit is asked for (zero and negative ones included),
    every entry of the gallery is the view of a stored reflection whose
    [is_public] is true, the entries are ordered newest first, each entry
    carries exactly the keys id, challenge_id, note, mood_after and
    created_at (so neither the author nor the mood before), and the
    handler leaves the world as it was. *)
Theorem gallery_shows_only_public_views
    (limit : Z) (w : World) (st : Database) :
  db w = Some st →
  ∃ out,
    gallery limit w = (Ok out, w)
    ∧ (∀ v, In v out →
            ∃ d, v = gallery_view d
                 ∧ In d (collection "reflection" st)
                 ∧ d !! "is_public" = Some (VBool true))
    ∧ Sorted newer_or_equal out
    ∧ ∀ v, In v out → dom v = gallery_keys ∧ v !! "user_id" = None
                      ∧ v !! "mood_before" = None.
Proof.
  intros Hdb. eexists. split; [by apply gallery_run |].
  unfold gallery_docs. split; [| split].
  - intros v (d & <- & Hd)%in_map_iff. exists d. split; [done |].
    apply limit_In, sort_descending_In, filter_In in Hd as [Hin Hpub].
    split; [done |]. by apply matches_public_only.
  - apply gallery_view_Sorted, limit_Sorted, sort_descending_Sorted.
  - intros v (d & <- & _)%in_map_iff. split; [apply gallery_view_keys |].
    split; reflexivity.
Qed.

Lemma gallery_shows_only_public_views_witness :
  ∃ out,
    gallery (-3) MoreSamples.busy_world = (Ok out, MoreSamples.busy_world)
    ∧ (∀ v, In v out →
            ∃ d, v = gallery_view d
                 ∧ In d (collection "reflection"
                           {[ "user" := [Samples.ann; MoreSamples.bob];
                              "reflection" := (map Samples.public_reflection (seq 0 3)
                                               ++ [MoreSamples.private_note])%list ]})
                 ∧ d !! "is_public" = Some (VBool true))
    ∧ Sorted newer_or_equal out
    ∧ ∀ v, In v out → dom v = gallery_keys ∧ v !! "user_id" = None
                      ∧ v !! "mood_before" = None.
Proof.
  apply (gallery_shows_only_public_views (-3) MoreSamples.busy_world
           {[ "user" := [Samples.ann; MoreSamples.bob];
              "reflection" := (map Samples.public_reflection (seq 0 3)
                               ++ [MoreSamples.private_note])%list ]}).
  reflexivity.
Defined.

(** X11: for a limit of at least 1 the gallery has exactly
    [min(limit, 50, number of public reflections)] entries. *)
Theorem gallery_size_for_positive_limits
    (limit : Z) (w : World) (st : Database) :
  db w = Some st →
  1 <= limit →
  ∃ out,
    gallery limit w = (Ok out, w)
    ∧ Z.of_nat (length out)
      = Z.min (Z.min limit 50)
          (Z.of_nat (length (find public_only (collection "reflection" st)))).
Proof.
  intros Hdb Hpos. eexists. split; [by apply gallery_run |].
  unfold gallery_docs, Mongo.limit.
  destruct (Z.eqb_spec (Z.min limit 50) 0) as [Hzero | _]; [lia |].
  rewrite length_map, length_firstn, sort_descending_length. lia.
Qed.

Lemma gallery_size_for_positive_limits_witness :
  ∃ out,
    gallery 2 MoreSamples.busy_world = (Ok out, MoreSamples.busy_world)
    ∧ Z.of_nat (length out)
      = Z.min (Z.min 2 50)
          (Z.of_nat (length (find public_only
                               (collection "reflection"
                                  {[ "user" := [Samples.ann; MoreSamples.bob];
                                     "reflection" :=
                                       (map Samples.public_reflection (seq 0 3)
                                        ++ [MoreSamples.private_note])%list ]})))).
Proof.
  apply (gallery_size_for_positive_limits 2 MoreSamples.busy_world
           {[ "user" := [Samples.ann; MoreSamples.bob];
              "reflection" := (map Samples.public_reflection (seq 0 3)
                               ++ [MoreSamples.private_note])%list ]}).
  - reflexivity.
  - lia.
Defined.

(** X12: submitting a reflection that is not public never changes what
    the gallery returns, for any limit. *)
Theorem private_reflection_never_reaches_the_gallery
    (limit : Z) (w : World) (st : Database) (payload : ReflectionRequest) :
  db w = Some st →
  moods_in_range payload →
  is_public payload = false →
  (gallery limit (submit_reflection payload w).2).1 = (gallery limit w).1.
Proof.
  intros Hdb Hvalid Hprivate.
  destruct (submit_reflection_reflections w st payload Hdb Hvalid)
    as (st' & Hdb' & Hrefl & _).
  rewrite (gallery_run limit _ st' Hdb'), (gallery_run limit w st Hdb). simpl.
  unfold gallery_docs, find.
  rewrite Hrefl, List.filter_app, filter_one, stored_reflection_is_public, Hprivate.
  by rewrite app_nil_r.
Qed.

Lemma private_reflection_never_reaches_the_gallery_witness :
  (gallery 20 (submit_reflection (MoreSamples.private_reflection_by "u1")
                 MoreSamples.busy_world).2).1
  = (gallery 20 MoreSamples.busy_world).1.
Proof.
  apply (private_reflection_never_reaches_the_gallery 20 MoreSamples.busy_world
           {[ "user" := [Samples.ann; MoreSamples.bob];
              "reflection" := (map Samples.public_reflection (seq 0 3)
                               ++ [MoreSamples.private_note])%list ]}
           (MoreSamples.private_reflection_by "u1")).
  - reflexivity.
  - unfold moods_in_range. simpl. lia.
  - reflexivity.
Defined.

(** X13: a public reflection shows up in the gallery right after it is
    submitted whenever fewer than [min(limit, 50)] public reflections
    were stored before, for a limit of at least 1. *)
Theorem public_reflection_reaches_the_gallery
    (limit : Z) (w : World) (st : Database) (payload : ReflectionRequest) :
  db w = Some st →
  moods_in_range payload →
  is_public payload = true →
  1 <= limit →
  Z.of_nat (length (find public_only (collection "reflection" st))) < Z.min limit 50 →
  ∃ out,
    (gallery limit (submit_reflection payload w).2).1 = Ok out
    ∧ In (gallery_view (stored_reflection w payload)) out.
Proof.
  intros Hdb Hvalid Hpublic Hpos Hroom.
  destruct (submit_reflection_reflections w st payload Hdb Hvalid)
    as (st' & Hdb' & Hrefl & _).
  eexists. rewrite (gallery_run limit _ st' Hdb'). split; [reflexivity |].
  apply in_map. unfold gallery_docs, Mongo.limit.
  destruct (Z.eqb_spec (Z.min limit 50) 0) as [Hzero | _]; [lia |].
  rewrite firstn_all2.
  - apply sort_descending_In. unfold find.
    rewrite Hrefl, List.filter_app, filter_one, stored_reflection_is_public, Hpublic.
    apply in_or_app. right. by left.
  - rewrite sort_descending_length. unfold find in *.
    rewrite Hrefl, List.filter_app, length_app, filter_one,
      stored_reflection_is_public, Hpublic.
    simpl length. lia.
Qed.

Lemma public_reflection_reaches_the_gallery_witness :
  ∃ out,
    (gallery 20 (submit_reflection (Samples.reflection_by "u2")
                   MoreSamples.busy_world).2).1 = Ok out
    ∧ In (gallery_view (stored_reflection MoreSamples.busy_world
                          (Samples.reflection_by "u2"))) out.
Proof.
  apply (public_reflection_reaches_the_gallery 20 MoreSamples.busy_world
           {[ "user" := [Samples.ann; MoreSamples.bob];
              "reflection" := (map Samples.public_reflection (seq 0 3)
                               ++ [MoreSamples.private_note])%list ]}
           (Samples.reflection_by "u2")).
  - reflexivity.
  - unfold moods_in_range. simpl. lia.
  - reflexivity.
  - lia.
  - vm_compute. reflexivity.
Defined.

(** ** The profile: errors, recent reflections and badges *)

Lemma matches_one_field (field : string) (v : value) (d : Doc) :
  v ≠ VNone →
  matches [(field, Equals v)] d = true ↔ d !! field = Some v.
Proof.
  intros Hv. unfold matches, field_matches, value_matches. simpl.
  rewrite andb_true_r. destruct (d !! field) as [x |]; simpl.
  - rewrite bool_decide_eq_true. split; congruence.
  - rewrite bool_decide_eq_true. split; [done | discriminate].
Qed.

Lemma reflection_view_created_at (d : Doc) :
  sort_key "created_at" (reflection_view d) = sort_key "created_at" d.
Proof. reflexivity. Qed.

Lemma reflection_view_Sorted (l : list Doc) :
  Sorted (at_least "created_at") l → Sorted newer_or_equal (map reflection_view l).
Proof.
  induction 1 as [| x xs Hsorted IH Hhd]; simpl; constructor; [done |].
  destruct Hhd; simpl; constructor.
  unfold newer_or_equal, at_least. by rewrite !reflection_view_created_at.
Qed.

(** The profile of a stored user whose xp and streak are integers. *)
Lemma get_profile_run
    (w : World) (st : Database) (uid : string) (u : Doc) (x s : Z) :
  db w = Some st →
  find_one (by_id uid) (collection "user" st) = Some u →
  xp_of u = VInt x →
  streak_of u = VInt s →
  get_profile uid w
  = (Ok {| profile_user :=
             list_to_map [("_id", VStr uid); ("name", dict_get u "name" VNone);
                          ("mode", dict_get u "mode" VNone);
                          ("xp", VInt x); ("streak", VInt s)];
           badges := List.filter (meets_requirement x s) BADGES;
           recent_reflections :=
             map reflection_view
               (limit 5 (sort_descending "created_at"
                           (find [("user_id", Equals (VStr uid))]
                              (collection "reflection" st)))) |}, w).
Proof.
  intros Hdb Hfind Hxp Hs.
  pose proof (found_by_id_is_truthy _ _ _ Hfind) as Htruthy.
  unfold get_profile, mbind, M_bind, mret, M_ret, lift, db_is_none,
    coll_find_one, get_collection, raise.
  rewrite Hdb. rewrite bool_decide_eq_false_2 by done. step_monad.
  rewrite Hdb. step_monad. rewrite Hfind. step_monad.
  rewrite Htruthy, Hxp, Hs, comprehension_earned. step_monad.
  by rewrite Hdb.
Qed.

(** X14: for an identifier that no stored user has, the profile handler
    answers 404 "User not found" and leaves the world as it was. *)
Theorem profile_of_unknown_user_is_404
    (w : World) (st : Database) (uid : string) :
  db w = Some st →
  find_one (by_id uid) (collection "user" st) = None →
  get_profile uid w = (Raise (HTTPException 404 "User not found"), w).
Proof.
  intros Hdb Hnone.
  unfold get_profile, mbind, M_bind, mret, M_ret, lift, db_is_none,
    coll_find_one, get_collection, raise.
  rewrite Hdb. rewrite bool_decide_eq_false_2 by done. step_monad.
  rewrite Hdb. step_monad. by rewrite Hnone.
Qed.

Lemma profile_of_unknown_user_is_404_witness :
  get_profile "nobody" MoreSamples.busy_world
  = (Raise (HTTPException 404 "User not found"), MoreSamples.busy_world).
Proof.
  apply (profile_of_unknown_user_is_404 MoreSamples.busy_world
           {[ "user" := [Samples.ann; MoreSamples.bob];
              "reflection" := (map Samples.public_reflection (seq 0 3)
                               ++ [MoreSamples.private_note])%list ]} "nobody").
  - reflexivity.
  - vm_compute. reflexivity.
Defined.

(** X15: without storage the handlers that guard on it ([set_mode],
    [get_profile] and [gallery]) each answer 500 "Database not configured"
    and leave the world as it was, whatever their arguments. *)
Theorem unconfigured_storage_is_500
    (w : World) (uid : string) (payload : ModeRequest) (limit : Z) :
  db w = None →
  set_mode uid payload w
  = (Raise (HTTPException 500 "Database not configured"), w)
  ∧ get_profile uid w = (Raise (HTTPException 500 "Database not configured"), w)
  ∧ gallery limit w = (Raise (HTTPException 500 "Database not configured"), w).
Proof.
  intros Hdb.
  unfold set_mode, get_profile, gallery, db_is_none. step_monad.
  rewrite Hdb. by rewrite bool_decide_eq_true_2.
Qed.

Lemma unconfigured_storage_is_500_witness :
  set_mode "u1" {| mode := "casual" |} MoreSamples.unconfigured_world
  = (Raise (HTTPException 500 "Database not configured"), MoreSamples.unconfigured_world)
  ∧ get_profile "u1" MoreSamples.unconfigured_world
    = (Raise (HTTPException 500 "Database not configured"), MoreSamples.unconfigured_world)
  ∧ gallery 20 MoreSamples.unconfigured_world
    = (Raise (HTTPException 500 "Database not configured"), MoreSamples.unconfigured_world).
Proof.
  apply (unconfigured_storage_is_500 MoreSamples.unconfigured_world "u1"
           {| mode := "casual" |} 20).
  reflexivity.
Defined.

(** X16: the recent reflections of a profile are at most five, ordered
    newest first, and each is the view of a stored reflection whose
    [user_id] is the profile's user; building the profile changes
    nothing. *)
Theorem profile_lists_the_users_latest_reflections
    (w : World) (st : Database) (uid : string) (u : Doc) (x s : Z) :
  db w = Some st →
  find_one (by_id uid) (collection "user" st) = Some u →
  xp_of u = VInt x →
  streak_of u = VInt s →
  ∃ p,
    get_profile uid w = (Ok p, w)
    ∧ (length (recent_reflections p) ≤ 5)%nat
    ∧ Z.of_nat (length (recent_reflections p))
      = Z.min 5 (Z.of_nat (length (find [("user_id", Equals (VStr uid))]
                                     (collection "reflection" st))))
    ∧ Sorted newer_or_equal (recent_reflections p)
    ∧ ∀ v, In v (recent_reflections p) →
           ∃ d, v = reflection_view d
                ∧ In d (collection "reflection" st)
                ∧ d !! "user_id" = Some (VStr uid).
Proof.
  intros Hdb Hfind Hxp Hs. eexists. split; [by eapply get_profile_run |].
  cbn [recent_reflections]. unfold Mongo.limit. simpl (5 =? 0). cbv iota.
  rewrite length_map, length_firstn, sort_descending_length.
  split; [lia |]. split; [lia |]. split.
  - apply reflection_view_Sorted, firstn_Sorted, sort_descending_Sorted.
  - intros v (d & <- & Hd)%in_map_iff. exists d. split; [done |].
    apply In_firstn, sort_descending_In, filter_In in Hd as [Hin Hmine].
    split; [done |]. by apply matches_one_field in Hmine.
Qed.

Lemma profile_lists_the_users_latest_reflections_witness :
  ∃ p,
    get_profile "u1" MoreSamples.busy_world = (Ok p, MoreSamples.busy_world)
    ∧ (length (recent_reflections p) ≤ 5)%nat
    ∧ Z.of_nat (length (recent_reflections p))
      = Z.min 5 (Z.of_nat (length (find [("user_id", Equals (VStr "u1"))]
                                     (collection "reflection"
                                        {[ "user" := [Samples.ann; MoreSamples.bob];
                                           "reflection" :=
                                             (map Samples.public_reflection (seq 0 3)
                                              ++ [MoreSamples.private_note])%list ]}))))
    ∧ Sorted newer_or_equal (recent_reflections p)
    ∧ ∀ v, In v (recent_reflections p) →
           ∃ d, v = reflection_view d
                ∧ In d (collection "reflection"
                          {[ "user" := [Samples.ann; MoreSamples.bob];
                             "reflection" := (map Samples.public_reflection (seq 0 3)
                                              ++ [MoreSamples.private_note])%list ]})
                ∧ d !! "user_id" = Some (VStr "u1").
Proof.
  apply (profile_lists_the_users_latest_reflections MoreSamples.busy_world
           {[ "user" := [Samples.ann; MoreSamples.bob];
              "reflection" := (map Samples.public_reflection (seq 0 3)
                               ++ [MoreSamples.private_note])%list ]}
           "u1" Samples.ann 40 3).
  - reflexivity.
  - vm_compute. reflexivity.
  - vm_compute. reflexivity.
  - vm_compute. reflexivity.
Defined.

Lemma meets_requirement_mono (x s x' s' : Z) (b : Badge) :
  x <= x' → s <= s' →
  meets_requirement x s b = true → meets_requirement x' s' b = true.
Proof.
  intros Hx Hs. rewrite !meets_requirement_spec. lia.
Qed.

Lemma filter_sublist_mono {A} (p q : A → bool) (l : list A) :
  (∀ a, p a = true → q a = true) → sublist (List.filter p l) (List.filter q l).
Proof.
  intros Hpq. induction l as [| a l IH]; simpl; [constructor |].
  destruct (p a) eqn:Hp.
  - rewrite (Hpq a Hp). by constructor.
  - destruct (q a); [by constructor | done].
Qed.

(** X17: badges are never lost by progress: if one stored user has at
    least the xp and at least the streak of another, the first profile
    contains every badge of the second, in the same order. *)
Theorem more_progress_never_loses_a_badge
    (w w' : World) (st st' : Database) (uid uid' : string) (u u' : Doc)
    (x s x' s' : Z) :
  db w = Some st →
  find_one (by_id uid) (collection "user" st) = Some u →
  xp_of u = VInt x →
  streak_of u = VInt s →
  db w' = Some st' →
  find_one (by_id uid') (collection "user" st') = Some u' →
  xp_of u' = VInt x' →
  streak_of u' = VInt s' →
  x <= x' →
  s <= s' →
  ∃ p p',
    get_profile uid w = (Ok p, w)
    ∧ get_profile uid' w' = (Ok p', w')
    ∧ sublist (badges p) (badges p')
    ∧ ∀ b, In b (badges p) → In b (badges p').
Proof.
  intros Hdb Hfind Hxp Hs Hdb' Hfind' Hxp' Hs' Hx_le Hs_le.
  eexists _, _.
  split; [by eapply get_profile_run |]. split; [by eapply get_profile_run |].
  cbn [badges]. split.
  - apply filter_sublist_mono. intros b. by apply meets_requirement_mono.
  - intros b [Hin Hmeets]%filter_In. apply filter_In. split; [done |].
    by eapply meets_requirement_mono.
Qed.

Lemma more_progress_never_loses_a_badge_witness :
  ∃ p p',
    get_profile "u2" MoreSamples.busy_world = (Ok p, MoreSamples.busy_world)
    ∧ get_profile "u1" MoreSamples.busy_world = (Ok p', MoreSamples.busy_world)
    ∧ sublist (badges p) (badges p')
    ∧ ∀ b, In b (badges p) → In b (badges p').
Proof.
  apply (more_progress_never_loses_a_badge MoreSamples.busy_world MoreSamples.busy_world
           {[ "user" := [Samples.ann; MoreSamples.bob];
              "reflection" := (map Samples.public_reflection (seq 0 3)
                               ++ [MoreSamples.private_note])%list ]}
           {[ "user" := [Samples.ann; MoreSamples.bob];
              "reflection" := (map Samples.public_reflection (seq 0 3)
                               ++ [MoreSamples.private_note])%list ]}
           "u2" "u1" MoreSamples.bob Samples.ann 0 0 40 3).
  - reflexivity.
  - vm_compute. reflexivity.
  - vm_compute. reflexivity.
  - vm_compute. reflexivity.
  - reflexivity.
  - vm_compute. reflexivity.
  - vm_compute. reflexivity.
  - vm_compute. reflexivity.
  - lia.
  - lia.
Defined.

(** X18: for a user whose streak is within the xp ([0 <= streak] and
    [10 * streak <= xp], the relation accruals keep), the streak never
    decides a badge: the profile's badges are exactly the definitions
    whose requirement is at most the xp, and from 7 xp on they are the
    whole badge catalog. *)
Theorem badges_follow_xp_when_streak_is_within
    (w : World) (st : Database) (uid : string) (u : Doc) (x s : Z) :
  db w = Some st →
  find_one (by_id uid) (collection "user" st) = Some u →
  xp_of u = VInt x →
  streak_of u = VInt s →
  streak_within_xp x s →
  ∃ p,
    get_profile uid w = (Ok p, w)
    ∧ badges p = List.filter (λ b, requirement b <=? x) BADGES
    ∧ (7 <= x → badges p = BADGES).
Proof.
  intros Hdb Hfind Hxp Hs [Hnonneg Hwithin].
  eexists. split; [by eapply get_profile_run |]. cbn [badges].
  assert (List.filter (meets_requirement x s) BADGES
          = List.filter (λ b, requirement b <=? x) BADGES) as ->.
  { apply List.filter_ext. intros b. unfold meets_requirement.
    destruct (Z.leb_spec (requirement b) x), (Z.leb_spec (requirement b) s);
      simpl; try done. lia. }
  split; [done |]. intros Hall. simpl.
  repeat match goal with
         | |- context [?a <=? x] => destruct (Z.leb_spec a x); [| lia]
         end.
  done.
Qed.

Lemma badges_follow_xp_when_streak_is_within_witness :
  ∃ p,
    get_profile "u1" MoreSamples.busy_world = (Ok p, MoreSamples.busy_world)
    ∧ badges p = List.filter (λ b, requirement b <=? 40) BADGES
    ∧ (7 <= 40 → badges p = BADGES).
Proof.
  apply (badges_follow_xp_when_streak_is_within MoreSamples.busy_world
           {[ "user" := [Samples.ann; MoreSamples.bob];
              "reflection" := (map Samples.public_reflection (seq 0 3)
                               ++ [MoreSamples.private_note])%list ]}
           "u1" Samples.ann 40 3).
  - reflexivity.
  - vm_compute. reflexivity.
  - vm_compute. reflexivity.
  - vm_compute. reflexivity.
  - unfold streak_within_xp. lia.
Defined.

(** ** Setting the mode: what the handler leaves behind *)

Lemma find_one_after_prefix (q : query) (before after : list Doc) (d : Doc) :
  find_one q before = None →
  matches q d = true →
  find_one q (before ++ d :: after)%list = Some d.
Proof.
  unfold find_one. intros Hnone Hd.
  induction before as [| x before IH]; simpl in *; [by rewrite Hd |].
  destruct (matches q x); [done |]. by apply IH.
Qed.


(** ** Signup: defaults, refusal, and the first reflection *)

Lemma signup_run
    (empty_preferences : value) (w : World) (st : Database) (payload : SignupRequest) :
  db w = Some st →
  mode_allowed (signup_mode payload) = true →
  signup empty_preferences payload w
  = (Ok (id_supply w (ids_taken w)), after_signup empty_preferences w payload)
  ∧ db (after_signup empty_preferences w payload)
    = Some (<["user" := (collection "user" st
                         ++ [new_user empty_preferences w payload])%list]> st).
Proof.
  intros Hdb Hmode.
  unfold signup, UserSchema, create_document, after_signup, new_user. step_monad.
  rewrite Hmode, Hdb. simpl. done.
Qed.

Lemma new_user_fields (empty_preferences : value) (w : World) (payload : SignupRequest) :
  new_user empty_preferences w payload !! "_id" = Some (VStr (id_supply w (ids_taken w)))
  ∧ xp_of (new_user empty_preferences w payload) = VInt 0
  ∧ streak_of (new_user empty_preferences w payload) = VInt 0
  ∧ last_date_of (new_user empty_preferences w payload) = None
  ∧ dict_get (new_user empty_preferences w payload) "name" VNone
    = from_option VStr VNone (signup_name payload)
  ∧ dict_get (new_user empty_preferences w payload) "mode" VNone
    = from_option VStr VNone (signup_mode payload).
Proof. repeat split. Qed.

Lemma find_new_user
    (empty_preferences : value) (w : World) (st : Database) (payload : SignupRequest) :
  find_one (by_id (id_supply w (ids_taken w))) (collection "user" st) = None →
  find_one (by_id (id_supply w (ids_taken w)))
    (collection "user"
       (<["user" := (collection "user" st
                     ++ [new_user empty_preferences w payload])%list]> st))
  = Some (new_user empty_preferences w payload).
Proof.
  intros Hfresh. rewrite collection_insert_eq.
  apply find_one_after_prefix; [done |]. apply matches_by_id.
  apply new_user_fields.
Qed.

(** X21: signing up with an allowed mode stores one new user document
    at the end of the user collection and returns its identifier; when no
    earlier user has that identifier, the profile under it shows the given
    name and mode, 0 xp, a streak of 0 and no badge. *)
Theorem signup_then_profile
    (empty_preferences : value) (w : World) (st : Database) (payload : SignupRequest) :
  db w = Some st →
  mode_allowed (signup_mode payload) = true →
  find_one (by_id (id_supply w (ids_taken w))) (collection "user" st) = None →
  ∃ w1 st1 p,
    signup empty_preferences payload w = (Ok (id_supply w (ids_taken w)), w1)
    ∧ db w1 = Some st1
    ∧ collection "user" st1
      = (collection "user" st ++ [new_user empty_preferences w payload])%list
    ∧ collection "reflection" st1 = collection "reflection" st
    ∧ get_profile (id_supply w (ids_taken w)) w1 = (Ok p, w1)
    ∧ profile_user p !! "name" = Some (from_option VStr VNone (signup_name payload))
    ∧ profile_user p !! "mode" = Some (from_option VStr VNone (signup_mode payload))
    ∧ profile_user p !! "xp" = Some (VInt 0)
    ∧ profile_user p !! "streak" = Some (VInt 0)
    ∧ badges p = [].
Proof.
  intros Hdb Hmode Hfresh.
  destruct (signup_run empty_preferences w st payload Hdb Hmode) as [Hrun Hdb1].
  pose proof (find_new_user empty_preferences w st payload Hfresh) as Hfind1.
  destruct (new_user_fields empty_preferences w payload)
    as (_ & Hxp & Hs & _ & Hname & Hmode').
  eexists _, _, _.
  split; [exact Hrun |]. split; [exact Hdb1 |].
  rewrite collection_insert_eq. split; [reflexivity |].
  rewrite collection_insert_ne by done. split; [reflexivity |].
  split; [by eapply get_profile_run |].
  cbn [profile_user badges]. rewrite Hname, Hmode'. repeat split.
Qed.

Lemma signup_then_profile_witness :
  ∃ w1 st1 p,
    signup VNone MoreSamples.newcomer MoreSamples.busy_world
    = (Ok (id_supply MoreSamples.busy_world (ids_taken MoreSamples.busy_world)), w1)
    ∧ db w1 = Some st1
    ∧ collection "user" st1
      = (collection "user"
           {[ "user" := [Samples.ann; MoreSamples.bob];
              "reflection" := (map Samples.public_reflection (seq 0 3)
                               ++ [MoreSamples.private_note])%list ]}
         ++ [new_user VNone MoreSamples.busy_world MoreSamples.newcomer])%list
    ∧ collection "reflection" st1
      = collection "reflection"
          {[ "user" := [Samples.ann; MoreSamples.bob];
             "reflection" := (map Samples.public_reflection (seq 0 3)
                              ++ [MoreSamples.private_note])%list ]}
    ∧ get_profile (id_supply MoreSamples.busy_world (ids_taken MoreSamples.busy_world)) w1
      = (Ok p, w1)
    ∧ profile_user p !! "name"
      = Some (from_option VStr VNone (signup_name MoreSamples.newcomer))
    ∧ profile_user p !! "mode"
      = Some (from_option VStr VNone (signup_mode MoreSamples.newcomer))
    ∧ profile_user p !! "xp" = Some (VInt 0)
    ∧ profile_user p !! "streak" = Some (VInt 0)
    ∧ badges p = [].
Proof.
  apply (signup_then_profile VNone MoreSamples.busy_world
           {[ "user" := [Samples.ann; MoreSamples.bob];
              "reflection" := (map Samples.public_reflection (seq 0 3)
                               ++ [MoreSamples.private_note])%list ]}
           MoreSamples.newcomer).
  - reflexivity.
  - reflexivity.
  - vm_compute. reflexivity.
Defined.

(** X22: signing up with a mode other than "casual" or "challenge" is
    refused by the user schema with a validation error, and nothing is
    stored. *)
Theorem signup_refuses_an_unknown_mode
    (empty_preferences : value) (w : World) (payload : SignupRequest) :
  mode_allowed (signup_mode payload) = false →
  signup empty_preferences payload w = (Raise ValidationError, w).
Proof.
  intros Hmode. unfold signup, UserSchema. step_monad. by rewrite Hmode.
Qed.

Lemma signup_refuses_an_unknown_mode_witness :
  signup VNone {| signup_name := Some "Di"; signup_email := None;
                  signup_mode := Some "zen" |} MoreSamples.busy_world
  = (Raise ValidationError, MoreSamples.busy_world).
Proof.
  apply (signup_refuses_an_unknown_mode VNone MoreSamples.busy_world
           {| signup_name := Some "Di"; signup_email := None;
              signup_mode := Some "zen" |}).
  reflexivity.
Defined.

(** X23: a new user's first reflection: after signing up and submitting
    one reflection under the returned identifier, the profile shows 10
    xp, a streak of 1 and every badge of the catalog. *)
Theorem first_reflection_after_signup
    (empty_preferences : value) (w : World) (st : Database)
    (account : SignupRequest) (payload : ReflectionRequest) :
  db w = Some st →
  mode_allowed (signup_mode account) = true →
  find_one (by_id (id_supply w (ids_taken w))) (collection "user" st) = None →
  user_id payload = id_supply w (ids_taken w) →
  moods_in_range payload →
  ∃ w1 w2 p,
    signup empty_preferences account w = (Ok (user_id payload), w1)
    ∧ submit_reflection payload w1 = (Ok (id_supply w (S (ids_taken w))), w2)
    ∧ get_profile (user_id payload) w2 = (Ok p, w2)
    ∧ profile_user p !! "xp" = Some (VInt 10)
    ∧ profile_user p !! "streak" = Some (VInt 1)
    ∧ badges p = BADGES.
Proof.
  intros Hdb Hmode Hfresh Huid Hvalid.
  destruct (signup_run empty_preferences w st account Hdb Hmode) as [Hrun Hdb1].
  pose proof (find_new_user empty_preferences w st account Hfresh) as Hfind1.
  destruct (new_user_fields empty_preferences w account)
    as (_ & Hxp & Hs & Hlast & _ & _).
  set (w1 := after_signup empty_preferences w account) in *.
  set (nu := new_user empty_preferences w account) in *.
  rewrite <- Huid in Hfind1, Hrun.
  destruct (submit_reflection_found_world w1 _ payload nu 10 0 (VInt 1)
              Hdb1 Hvalid Hfind1 Hxp)
    as (before & after & _ & _ & Hrun2 & Hagain).
  { rewrite (xp_and_streak_other_day nu _ 0); [| by rewrite Hlast | done].
    by rewrite Hlast. }
  eexists w1, _, _.
  split; [exact Hrun |]. split; [exact Hrun2 |].
  split.
  - eapply get_profile_run; [reflexivity | | apply xp_of_accrued | apply streak_of_accrued].
    rewrite collection_insert_eq. exact Hagain.
  - cbn [profile_user badges]. repeat split.
Qed.

Lemma first_reflection_after_signup_witness :
  ∃ w1 w2 p,
    signup VNone MoreSamples.newcomer MoreSamples.busy_world
    = (Ok (user_id (Samples.reflection_by "n0")), w1)
    ∧ submit_reflection (Samples.reflection_by "n0") w1
      = (Ok (id_supply MoreSamples.busy_world (S (ids_taken MoreSamples.busy_world))), w2)
    ∧ get_profile (user_id (Samples.reflection_by "n0")) w2 = (Ok p, w2)
    ∧ profile_user p !! "xp" = Some (VInt 10)
    ∧ profile_user p !! "streak" = Some (VInt 1)
    ∧ badges p = BADGES.
Proof.
  apply (first_reflection_after_signup VNone MoreSamples.busy_world
           {[ "user" := [Samples.ann; MoreSamples.bob];
              "reflection" := (map Samples.public_reflection (seq 0 3)
                               ++ [MoreSamples.private_note])%list ]}
           MoreSamples.newcomer (Samples.reflection_by "n0")).
  - reflexivity.
  - reflexivity.
  - vm_compute. reflexivity.
  - vm_compute. reflexivity.
  - unfold moods_in_range. simpl. lia.
Defined.
